(** * Wallet / ledger service: a shallow embedding and its properties

    The development follows the TypeScript sources of the service:
    - [src/currency/currency.service.ts]  (CurrencyService)
    - [src/wallet/wallet.service.ts]      (WalletService)
    - the entities, DTOs and exceptions under [src/wallet].

    Conventions of the embedding.
    - A JavaScript [number] in the service is an exact rational ([Q]), the
      value of its decimal literal; statements about numbers use [==]
      ([Qeq]) unless a value is copied verbatim.  Where a property depends
      on the rounding of double precision arithmetic, module [Binary64]
      evaluates the same expressions on IEEE-754 binary64 numbers.
    - A [decimal(20,2)] column keeps two decimals of what is written to it
      and rejects what needs more than 18 digits before the point; a
      [varchar(n)] column rejects longer strings; a [uuid] column rejects
      text that is not a uuid.
    - A [Date] is a number of milliseconds ([N]) read from the store clock.
    - Identifiers (uuid columns) and the idempotency key are strings.
    - The relational store is state threaded through a small state and
      exception monad.  Rows written inside [dataSource.transaction] are kept
      in a write set that is applied on commit and dropped on rollback.
    - Every [await] on a store round trip is a point where other callers may
      commit; such interference is an explicit [Store -> Store] argument, and
      an error with which the store rejects a wallet update is an explicit
      argument as well. *)

From Stdlib Require Import QArith Qround Qabs Lqa ZArith Ascii String SpecFloat.
From stdpp Require Import gmap strings list fin_maps sorting.

Local Open Scope string_scope.
Local Open Scope Q_scope.

(* ===================================================================== *)
(** ** Numbers *)

(** [a < b] on numbers, as a boolean. *)
Definition Qltb (a b : Q) : bool :=
  match a ?= b with Lt => true | _ => false end.

(** JavaScript truthiness of a number: [0] is falsy. *)
Definition truthy (x : Q) : bool := negb (Qeq_bool x 0).

(** [Math.round]: the integer nearest to [x], ties towards +infinity. *)
Definition Math_round (x : Q) : Z := Qfloor (x + (1 # 2)).

(** [Math.abs]. *)
Definition Math_abs (x : Q) : Q := Qabs x.

(** [Math.pow] on integer arguments. *)
Definition Math_pow (b e : Z) : Z := Z.pow b e.

(** The integer nearest to [x], ties away from zero: the rounding of
    PostgreSQL's [numeric]. *)
Definition roundHalfAway (x : Q) : Z :=
  if Qltb x 0 then (- Qfloor (- x + (1 # 2)))%Z else Qfloor (x + (1 # 2)).

(** What a [decimal(20,2)] column keeps of a number written to it. *)
Definition toDecimal2 (x : Q) : Q := inject_Z (roundHalfAway (x * 100)) / 100.

(** Precision 20, scale 2: at most 18 digits before the point. *)
Definition fitsDecimal2 (x : Q) : bool :=
  Qltb (Qabs (toDecimal2 x)) (inject_Z (10 ^ 18)).

(* ===================================================================== *)
(** ** Strings *)

(** [String.prototype.toUpperCase], on the ASCII letters. *)
Definition upper_ascii (c : ascii) : ascii :=
  let n := nat_of_ascii c in
  if (97 <=? n)%nat && (n <=? 122)%nat then ascii_of_nat (n - 32) else c.

Fixpoint toUpperCase (s : string) : string :=
  match s with
  | EmptyString => EmptyString
  | String c r => String (upper_ascii c) (toUpperCase r)
  end.

(** A hexadecimal digit, of either case. *)
Definition isHexDigit (c : ascii) : bool :=
  let n := nat_of_ascii c in
  ((48 <=? n)%nat && (n <=? 57)%nat)
  || ((97 <=? n)%nat && (n <=? 102)%nat)
  || ((65 <=? n)%nat && (n <=? 70)%nat).

(** Text that a [uuid] column accepts, [remaining] bytes still to be read
    after [read] of them: two hexadecimal digits per byte, an optional
    hyphen after every second byte but the last, a closing brace if there
    was an opening one. *)
Fixpoint uuidBytes (remaining read : nat) (braced : bool) (s : string) : bool :=
  match remaining with
  | O => if braced then bool_decide (s = "}") else bool_decide (s = "")
  | S remaining' =>
      match s with
      | String a (String b rest) =>
          isHexDigit a && isHexDigit b
          && uuidBytes remaining' (S read) braced
               (if Nat.odd read && (read <? 15)%nat
                then match rest with
                     | String "-" rest' => rest'
                     | _ => rest
                     end
                else rest)
      | _ => false
      end
  end.

Definition isUuid (s : string) : bool :=
  match s with
  | String "{" rest => uuidBytes 16 0 true rest
  | _ => uuidBytes 16 0 false s
  end.

(** [x || d] on an optional string: [undefined] and [''] are falsy. *)
Definition orDefault (x : option string) (d : string) : string :=
  match x with
  | Some s => if decide (s = "") then d else s
  | None => d
  end.

(* ===================================================================== *)
(** ** Entities and DTOs *)

(** [TransactionType]: the enum's own file is not part of the sources at
    hand; its two members are the ones the service and the tests use. *)
Inductive TransactionType := DEPOSIT | WITHDRAWAL.

Global Instance TransactionType_eq_dec : EqDecision TransactionType.
Proof. solve_decision. Defined.

(** [Record<string, any>]: an opaque key/value payload. *)
Definition Metadata := list (string * string).

Module Wallet.
Record t := mk {
  id : string;
  balance : Q;
  currency : string;
  version : Z;
  createdAt : N;
  updatedAt : N
}.
End Wallet.

Module Transaction.
Record t := mk {
  id : string;
  transactionId : string;
  walletId : string;
  type : TransactionType;
  amount : Q;
  currency : string;
  convertedAmount : Q;
  metadata : option Metadata;
  createdAt : N
}.
End Transaction.

Module CreateTransactionDto.
Record t := mk {
  transactionId : string;
  walletId : string;
  type : TransactionType;
  amount : Q;
  currency : option string;
  metadata : option Metadata
}.
End CreateTransactionDto.

Module TransactionResponseDto.
Record t := mk {
  id : string;
  transactionId : string;
  walletId : string;
  type : TransactionType;
  amount : Q;
  currency : string;
  convertedAmount : Q;
  metadata : option Metadata;
  createdAt : N
}.
End TransactionResponseDto.

(** The object literal returned by [getBalance]. *)
Module BalanceResponseDto.
Record t := mk {
  walletId : string;
  balance : Q;
  currency : string;
  lastUpdatedAt : N
}.
End BalanceResponseDto.

(* ===================================================================== *)
(** ** Exceptions *)

Record Details := mkDetails {
  currentBalance : Q;
  requestedAmount : Q;
  shortfall : Q
}.

(** Body of an [HttpException]. *)
Record Response := mkResponse {
  statusCode : Z;
  message : string;
  error : string;
  details : option Details
}.

(** What a call can throw, by class. *)
Inductive Exn :=
| Error (msg : string)
| WalletNotFound (r : Response)
| InsufficientFunds (r : Response)
| OptimisticLockVersionMismatchError
| QueryFailedError (detail : string).

Definition NOT_FOUND : Z := 404.
Definition BAD_REQUEST : Z := 400.

(** [new WalletNotFoundException(walletId)] *)
Definition WalletNotFoundException (walletId : string) : Exn :=
  WalletNotFound
    {| statusCode := NOT_FOUND;
       message := "Wallet with ID " ++ walletId ++ " not found";
       error := "WALLET_NOT_FOUND";
       details := None |}.

(** [new InsufficientFundsException(balance, requested)] *)
Definition InsufficientFundsException (balance requested : Q) : Exn :=
  InsufficientFunds
    {| statusCode := BAD_REQUEST;
       message := "Insufficient funds";
       error := "INSUFFICIENT_FUNDS";
       details := Some {| currentBalance := balance;
                          requestedAmount := requested;
                          shortfall := requested - balance |} |}.

(** An error of the store's own making: a version conflict, or what the
    driver reports for a statement that failed. *)
Inductive StoreFault :=
| VersionConflict
| StatementFailed (detail : string).

Definition raised (f : StoreFault) : Exn :=
  match f with
  | VersionConflict => OptimisticLockVersionMismatchError
  | StatementFailed detail => QueryFailedError detail
  end.

(** [error instanceof OptimisticLockVersionMismatchError] *)
Definition isOptimisticLockVersionMismatch (e : Exn) : bool :=
  match e with
  | OptimisticLockVersionMismatchError => true
  | _ => false
  end.

(* ===================================================================== *)
(** ** CurrencyService *)

Module CurrencyService.

(** The mock exchange rates to EGP. *)
Definition exchangeRates : list (string * Q) :=
  [ ("EGP", 1);
    ("USD", 49);
    ("EUR", 53);
    ("GBP", 62);
    ("SAR", 13);
    ("AED", 133 # 10) ].

(** [this.exchangeRates[code]] *)
Definition rateOf (code : string) : option Q :=
  snd <$> List.find (fun kv => bool_decide (fst kv = code)) exchangeRates.

(** [!this.exchangeRates[code]]: absent, or a falsy rate. *)
Definition unsupported (code : string) : bool :=
  match rateOf code with
  | Some r => negb (truthy r)
  | None => true
  end.

(** [this.exchangeRates[code]] once the guard has passed. *)
Definition rate (code : string) : Q := default 0 (rateOf code).

Definition convert (amount : Q) (fromCurrency toCurrency : string) : Exn + Q :=
  let from := toUpperCase fromCurrency in
  let to := toUpperCase toCurrency in
  if unsupported from then inl (Error ("Unsupported currency: " ++ from))
  else if unsupported to then inl (Error ("Unsupported currency: " ++ to))
  else
    let amountInEGP := amount * rate from in
    let convertedAmount := amountInEGP / rate to in
    inr (inject_Z (Math_round (convertedAmount * 100)) / 100).

Definition toEGP (amount : Q) (fromCurrency : string) : Exn + Q :=
  convert amount fromCurrency "EGP".

Definition getSupportedCurrencies : list string := fst <$> exchangeRates.

End CurrencyService.

(* ===================================================================== *)
(** ** CurrencyService on binary64 numbers

    The arithmetic of [convert] as JavaScript carries it out: every number
    is an IEEE-754 double, every operation rounds to the nearest double,
    ties to even. *)

Module Binary64.

Definition double := spec_float.

Definition prec : Z := 53.
Definition emax : Z := 1024.

Definition add : double -> double -> double := SFadd prec emax.
Definition mul : double -> double -> double := SFmul prec emax.
Definition div : double -> double -> double := SFdiv prec emax.

(** The double of an integer literal (the nearest one beyond 2^53). *)
Definition ofZ (z : Z) : double := binary_normalize prec emax z 0 false.

(** The double of the decimal literal [n / d]: the nearest double. *)
Definition literal (n d : Z) : double := div (ofZ n) (ofZ d).

(** The number a finite double stands for. *)
Definition exact (x : double) : option Q :=
  match x with
  | S754_zero _ => Some 0
  | S754_finite s m e => Some (inject_Z (cond_Zopp s (Zpos m)) * 2 ^ e)
  | _ => None
  end.

(** An integer as a double, with the sign of zero given. *)
Definition ofInteger (negative : bool) (k : Z) : double :=
  match k with
  | Z0 => S754_zero negative
  | _ => ofZ k
  end.

(** [Math.round]: the integer nearest to [x], ties towards +infinity; the
    sign of [x] on a zero result; NaN, infinities and zeros as they are. *)
Definition Math_round (x : double) : double :=
  match x with
  | S754_finite s m e =>
      ofInteger s (Qfloor (inject_Z (cond_Zopp s (Zpos m)) * 2 ^ e + (1 # 2)))
  | _ => x
  end.

(** Falsy numbers: zeros and NaN. *)
Definition falsy (x : double) : bool :=
  match x with
  | S754_zero _ | S754_nan => true
  | _ => false
  end.

Definition exchangeRates : list (string * double) :=
  [ ("EGP", ofZ 1);
    ("USD", ofZ 49);
    ("EUR", ofZ 53);
    ("GBP", ofZ 62);
    ("SAR", ofZ 13);
    ("AED", literal 133 10) ].

Definition rateOf (code : string) : option double :=
  snd <$> List.find (fun kv => bool_decide (fst kv = code)) exchangeRates.

Definition unsupported (code : string) : bool :=
  match rateOf code with
  | Some r => falsy r
  | None => true
  end.

Definition rate (code : string) : double := default S754_nan (rateOf code).

Definition convert (amount : double) (fromCurrency toCurrency : string)
  : Exn + double :=
  let from := toUpperCase fromCurrency in
  let to := toUpperCase toCurrency in
  if unsupported from then inl (Error ("Unsupported currency: " ++ from))
  else if unsupported to then inl (Error ("Unsupported currency: " ++ to))
  else
    let amountInEGP := mul amount (rate from) in
    let convertedAmount := div amountInEGP (rate to) in
    inr (div (Math_round (mul convertedAmount (ofZ 100))) (ofZ 100)).

Definition toEGP (amount : double) (fromCurrency : string) : Exn + double :=
  convert amount fromCurrency "EGP".

End Binary64.

(* ===================================================================== *)
(** ** The store *)

(** The two tables and the clock that stamps [createdAt] / [updatedAt].
    [wallets] is keyed by the primary key; [transactions] is the append-only
    ledger, in insertion order. *)
Record Store := mkStore {
  wallets : gmap string Wallet.t;
  transactions : list Transaction.t;
  clock : N
}.

(** What a caller can observe of its own run besides the store: each
    [dataSource.transaction] it opened and each [sleep] it awaited. *)
Inductive Event :=
| EvTransaction
| EvSleep (ms : Z).

Record World := mkWorld {
  store : Store;
  trace : list Event
}.

(** A row written inside a database transaction, not yet committed. *)
Inductive Write :=
| InsertTransaction (t : Transaction.t)
| UpdateWallet (w : Wallet.t).

(** State of a running database transaction. *)
Record TxState := mkTxState {
  world : World;
  writes : list Write
}.

Definition applyWrite (s : Store) (w : Write) : Store :=
  match w with
  | InsertTransaction t =>
      mkStore (wallets s) (transactions s ++ [t]) (clock s)
  | UpdateWallet w =>
      mkStore (<[Wallet.id w := w]> (wallets s)) (transactions s) (clock s)
  end.

Definition commitWrites (s : Store) (ws : list Write) : Store :=
  foldl applyWrite s ws.

(** What happens around one attempt of this caller without its doing: what
    other callers commit before it loads the wallet, what they commit
    between that load and its own writes, and the error, if any, with which
    the store rejects its update of the wallet row. *)
Record Interference := mkInterference {
  beforeLoad : Store -> Store;
  beforeCommit : Store -> Store;
  saveFault : option StoreFault
}.

Definition quiet : Interference :=
  {| beforeLoad := fun s => s; beforeCommit := fun s => s; saveFault := None |}.

(* ===================================================================== *)
(** ** State and exception monad *)

Definition M (S A : Type) : Type := S -> (Exn + A) * S.

Definition ret {S A} (a : A) : M S A := fun s => (inr a, s).

Definition bind {S A B} (m : M S A) (k : A -> M S B) : M S B :=
  fun s =>
    match m s with
    | (inr a, s') => k a s'
    | (inl e, s') => (inl e, s')
    end.

Definition throw {S A} (e : Exn) : M S A := fun s => (inl e, s).

(** [try { m } catch (error) { h error }] *)
Definition tryCatch {S A} (m : M S A) (h : Exn -> M S A) : M S A :=
  fun s =>
    match m s with
    | (inr a, s') => (inr a, s')
    | (inl e, s') => h e s'
    end.

(** A pure call that may throw. *)
Definition liftE {S A} (r : Exn + A) : M S A := fun s => (r, s).

Declare Scope m_scope.
Delimit Scope m_scope with M.
Notation "x <- c1 ;; c2" := (bind c1 (fun x => c2))
  (at level 100, c1 at next level, right associativity) : m_scope.
Notation "c1 ;;; c2" := (bind c1 (fun _ => c2))
  (at level 100, right associativity) : m_scope.
Local Open Scope m_scope.

(* ===================================================================== *)
(** ** Repositories and the entity manager

    The store is an external collaborator (TypeORM over PostgreSQL).  What
    the service relies on is modelled here:
    - generated columns ([id], [createdAt], [updatedAt], [version]) are
      filled in by [save], on the row and on the entity that was passed;
      the other fields of the entity stay as the caller set them;
    - a row holds what its columns can hold: [decimal(20,2)] rounds,
      and the statement fails with [QueryFailedError] on a number or a
      string that does not fit, or on text that is no uuid;
    - [transactionId] carries a unique index: inserting a second row with
      the same key fails with [QueryFailedError];
    - a wallet is loaded by a plain [findOne] and written back by a plain
      [save]: the row is overwritten whatever it holds by then, and its
      version is not compared with the one that was loaded; an error of the
      store on that update is given by the attempt's [saveFault];
    - [dataSource.transaction] commits the writes of its callback when the
      callback returns and discards them when it throws. *)

(** First value of a [@VersionColumn]. *)
Definition INITIAL_VERSION : Z := 1.

Definition findTransaction (s : Store) (transactionId : string)
  : option Transaction.t :=
  List.find (fun t => bool_decide (Transaction.transactionId t = transactionId))
            (transactions s).

(** [transactionRepository.findOne({ where: { transactionId } })] *)
Definition transactionRepository_findOne (transactionId : string)
  : M World (option Transaction.t) :=
  fun w => (inr (findTransaction (store w) transactionId), w).

(** Looking a wallet up by primary key: a stored id finds its row; any
    other text is compared as a uuid, and text that is none makes the
    statement fail. *)
Definition findWallet (s : Store) (id : string) : Exn + option Wallet.t :=
  match wallets s !! id with
  | Some wallet => inr (Some wallet)
  | None =>
      if isUuid id then inr None
      else inl (QueryFailedError "invalid input syntax for type uuid")
  end.

(** [walletRepository.findOne({ where: { id } })] *)
Definition walletRepository_findOne (id : string) : M World (option Wallet.t) :=
  fun w => (findWallet (store w) id, w).

(** [walletRepository.create({ balance, currency })]: generated columns are
    still unset. *)
Definition walletRepository_create (balance : Q) (currency : string) : Wallet.t :=
  Wallet.mk "" balance currency 0 0 0.

(** The first column of a wallet row, in the order of the table, that
    cannot hold its value. *)
Definition walletColumnsError (wallet : Wallet.t) : option string :=
  if negb (fitsDecimal2 (Wallet.balance wallet))
  then Some "numeric field overflow"
  else if (3 <? String.length (Wallet.currency wallet))%nat
  then Some "value too long for type character varying(3)"
  else None.

(** The row of a wallet entity: [balance] as the column keeps it. *)
Definition walletRow (wallet : Wallet.t) : Wallet.t :=
  Wallet.mk (Wallet.id wallet) (toDecimal2 (Wallet.balance wallet))
            (Wallet.currency wallet) (Wallet.version wallet)
            (Wallet.createdAt wallet) (Wallet.updatedAt wallet).

(** [walletRepository.save(wallet)] of a new entity: INSERT. *)
Definition walletRepository_save (wallet : Wallet.t) : M World Wallet.t :=
  fun w =>
    let s := store w in
    match walletColumnsError wallet with
    | Some detail => (inl (QueryFailedError detail), w)
    | None =>
        let saved :=
          Wallet.mk (fresh (dom (wallets s)))
                    (Wallet.balance wallet) (Wallet.currency wallet)
                    INITIAL_VERSION (clock s) (clock s) in
        (inr saved,
         mkWorld (mkStore (<[Wallet.id saved := walletRow saved]> (wallets s))
                          (transactions s) (clock s))
                 (trace w))
    end.

(** The ledger rows of one wallet. *)
Definition transactionsOf (s : Store) (walletId : string) : list Transaction.t :=
  List.filter (fun t => bool_decide (Transaction.walletId t = walletId))
              (transactions s).

Definition sumQ (l : list Q) : Q := foldr Qplus 0 l.

(** [SELECT SUM(transaction.convertedAmount) ... WHERE walletId = :walletId]:
    [null] when no row matches. *)
Definition transactionRepository_sumConvertedAmount (walletId : string)
  : M World (option Q) :=
  fun w =>
    let rows := transactionsOf (store w) walletId in
    (inr (match rows with
          | [] => None
          | _ => Some (sumQ (Transaction.convertedAmount <$> rows))
          end), w).

(** [ORDER BY createdAt DESC]: the newer row comes first. *)
Definition newerFirst (a b : Transaction.t) : Prop :=
  (Transaction.createdAt b <= Transaction.createdAt a)%N.

Global Instance newerFirst_dec : RelDecision newerFirst.
Proof. intros a b. unfold newerFirst. apply _. Defined.

(** [transactionRepository.find({ where: { walletId },
    order: { createdAt: 'DESC' } })].  Rows with equal [createdAt] come in
    an order the store leaves open; the model fixes the one of a stable
    merge sort. *)
Definition transactionRepository_find (walletId : string)
  : M World (list Transaction.t) :=
  fun w => (inr (merge_sort newerFirst (transactionsOf (store w) walletId)), w).

(** Other callers commit while this one is suspended. *)
Definition interfere (env : Store -> Store) : M TxState unit :=
  fun st =>
    (inr tt,
     mkTxState (mkWorld (env (store (world st))) (trace (world st)))
               (writes st)).

(** [entityManager.findOne(Wallet, { where: { id } })] *)
Definition em_findOneWallet (id : string) : M TxState (option Wallet.t) :=
  fun st => (findWallet (store (world st)) id, st).

(** [entityManager.create(Transaction, {...})]: generated columns unset. *)
Definition em_createTransaction
  (transactionId walletId : string) (type : TransactionType) (amount : Q)
  (currency : string) (convertedAmount : Q) (metadata : option Metadata)
  : Transaction.t :=
  Transaction.mk "" transactionId walletId type amount currency
                 convertedAmount metadata 0.

Definition freshTransactionId (s : Store) : string :=
  fresh (list_to_set (Transaction.id <$> transactions s) : gset string).

(** The first column of a ledger row, in the order of the table, that
    cannot hold its value. *)
Definition transactionColumnsError (t : Transaction.t) : option string :=
  if (255 <? String.length (Transaction.transactionId t))%nat
  then Some "value too long for type character varying(255)"
  else if negb (fitsDecimal2 (Transaction.amount t))
  then Some "numeric field overflow"
  else if (3 <? String.length (Transaction.currency t))%nat
  then Some "value too long for type character varying(3)"
  else if negb (fitsDecimal2 (Transaction.convertedAmount t))
  then Some "numeric field overflow"
  else None.

(** The row of a ledger entity: the amounts as the columns keep them. *)
Definition transactionRow (t : Transaction.t) : Transaction.t :=
  Transaction.mk (Transaction.id t)
    (Transaction.transactionId t) (Transaction.walletId t)
    (Transaction.type t) (toDecimal2 (Transaction.amount t))
    (Transaction.currency t) (toDecimal2 (Transaction.convertedAmount t))
    (Transaction.metadata t) (Transaction.createdAt t).

(** [entityManager.save(Transaction, transaction)]: INSERT under the unique
    index on [transactionId].  The entity gets its [id] and [createdAt]. *)
Definition em_saveTransaction (t : Transaction.t) : M TxState Transaction.t :=
  fun st =>
    let s := store (world st) in
    match transactionColumnsError t with
    | Some detail => (inl (QueryFailedError detail), st)
    | None =>
        match findTransaction s (Transaction.transactionId t) with
        | Some _ => (inl (QueryFailedError (Transaction.transactionId t)), st)
        | None =>
            let saved :=
              Transaction.mk (freshTransactionId s)
                (Transaction.transactionId t) (Transaction.walletId t)
                (Transaction.type t) (Transaction.amount t)
                (Transaction.currency t) (Transaction.convertedAmount t)
                (Transaction.metadata t) (clock s) in
            (inr saved,
             mkTxState (world st)
                       (writes st ++ [InsertTransaction (transactionRow saved)]))
        end
    end.

(** [entityManager.save(Wallet, wallet)] of a loaded entity: UPDATE of the
    row with that id, unless the store rejects it with [fault]; bumps
    [version] and [updatedAt]. *)
Definition em_saveWallet (fault : option StoreFault) (wallet : Wallet.t)
  : M TxState Wallet.t :=
  fun st =>
    let s := store (world st) in
    match fault with
    | Some f => (inl (raised f), st)
    | None =>
        if fitsDecimal2 (Wallet.balance wallet) then
          let saved :=
            Wallet.mk (Wallet.id wallet) (Wallet.balance wallet)
                      (Wallet.currency wallet) (Wallet.version wallet + 1)%Z
                      (Wallet.createdAt wallet) (clock s) in
          (inr saved,
           mkTxState (world st) (writes st ++ [UpdateWallet (walletRow saved)]))
        else (inl (QueryFailedError "numeric field overflow"), st)
    end.

(** [dataSource.transaction(async (entityManager) => body)] *)
Definition dataSource_transaction {A} (body : M TxState A) : M World A :=
  fun w =>
    let w0 := mkWorld (store w) (trace w ++ [EvTransaction]) in
    match body (mkTxState w0 []) with
    | (inr a, st) =>
        (inr a, mkWorld (commitWrites (store (world st)) (writes st))
                        (trace (world st)))
    | (inl e, st) => (inl e, world st)
    end.

(** [new Promise((resolve) => setTimeout(resolve, ms))] *)
Definition sleep (ms : Z) : M World unit :=
  fun w => (inr tt, mkWorld (store w) (trace w ++ [EvSleep ms])).

(* ===================================================================== *)
(** ** WalletService *)

Module WalletService.

Definition MAX_RETRIES : nat := 3.

Definition mapToResponseDto (transaction : Transaction.t)
  : TransactionResponseDto.t :=
  {| TransactionResponseDto.id := Transaction.id transaction;
     TransactionResponseDto.transactionId := Transaction.transactionId transaction;
     TransactionResponseDto.walletId := Transaction.walletId transaction;
     TransactionResponseDto.type := Transaction.type transaction;
     TransactionResponseDto.amount := Transaction.amount transaction;
     TransactionResponseDto.currency := Transaction.currency transaction;
     TransactionResponseDto.convertedAmount := Transaction.convertedAmount transaction;
     TransactionResponseDto.metadata := Transaction.metadata transaction;
     TransactionResponseDto.createdAt := Transaction.createdAt transaction |}.

(** [wallet.balance = newBalance] on the loaded entity. *)
Definition setBalance (wallet : Wallet.t) (newBalance : Q) : Wallet.t :=
  Wallet.mk (Wallet.id wallet) newBalance (Wallet.currency wallet)
            (Wallet.version wallet) (Wallet.createdAt wallet)
            (Wallet.updatedAt wallet).

(** One attempt, inside a database transaction. *)
Definition executeTransaction (itf : Interference) (dto : CreateTransactionDto.t)
  : M World TransactionResponseDto.t :=
  dataSource_transaction (
    (* 1. Load wallet with optimistic lock *)
    interfere (beforeLoad itf) ;;;
    wallet <- em_findOneWallet (CreateTransactionDto.walletId dto) ;;
    match wallet with
    | None => throw (WalletNotFoundException (CreateTransactionDto.walletId dto))
    | Some wallet =>
      (* 2. Convert currency to EGP *)
      convertedAmount <-
        liftE (CurrencyService.toEGP
                 (CreateTransactionDto.amount dto)
                 (orDefault (CreateTransactionDto.currency dto) "EGP")) ;;
      (* 3. Transaction impact *)
      let transactionImpact :=
        if decide (CreateTransactionDto.type dto = DEPOSIT)
        then convertedAmount else - convertedAmount in
      (* 4. New balance *)
      let newBalance := Wallet.balance wallet + transactionImpact in
      (* 5. Balance never goes negative *)
      if Qltb newBalance 0 then
        throw (InsufficientFundsException
                 (Wallet.balance wallet) (Math_abs transactionImpact))
      else
        (* 6. Ledger record *)
        let transaction :=
          em_createTransaction
            (CreateTransactionDto.transactionId dto)
            (CreateTransactionDto.walletId dto)
            (CreateTransactionDto.type dto)
            (CreateTransactionDto.amount dto)
            (orDefault (CreateTransactionDto.currency dto) "EGP")
            transactionImpact
            (CreateTransactionDto.metadata dto) in
        interfere (beforeCommit itf) ;;;
        transaction <- em_saveTransaction transaction ;;
        (* 7. Wallet balance *)
        _ <- em_saveWallet (saveFault itf) (setBalance wallet newBalance) ;;
        ret (mapToResponseDto transaction)
    end).

(** The [for (attempt = 1; attempt <= MAX_RETRIES; attempt++)] loop;
    [remaining] counts the iterations left, [MAX_RETRIES + 1 - attempt].
    Its [O] case is the loop exit and the [throw] that follows the loop. *)
Fixpoint attemptLoop (remaining attempt : nat) (itf : nat -> Interference)
  (dto : CreateTransactionDto.t) : M World TransactionResponseDto.t :=
  match remaining with
  | O => throw (Error "Transaction failed after maximum retries")
  | S remaining' =>
      tryCatch (executeTransaction (itf attempt) dto)
        (fun error =>
           if isOptimisticLockVersionMismatch error
              && (attempt <? MAX_RETRIES)%nat
           then
             sleep (Math_pow 2 (Z.of_nat attempt) * 100)%Z ;;;
             attemptLoop remaining' (S attempt) itf dto
           else throw error)
  end.

Definition createTransaction (itf : nat -> Interference)
  (dto : CreateTransactionDto.t) : M World TransactionResponseDto.t :=
  (* Check idempotency - if transaction already exists, return it *)
  existingTransaction <-
    transactionRepository_findOne (CreateTransactionDto.transactionId dto) ;;
  match existingTransaction with
  | Some existingTransaction => ret (mapToResponseDto existingTransaction)
  | None => attemptLoop MAX_RETRIES 1 itf dto
  end.

Definition getBalance (walletId : string) : M World BalanceResponseDto.t :=
  wallet <- walletRepository_findOne walletId ;;
  match wallet with
  | None => throw (WalletNotFoundException walletId)
  | Some wallet =>
      ret {| BalanceResponseDto.walletId := Wallet.id wallet;
             BalanceResponseDto.balance := Wallet.balance wallet;
             BalanceResponseDto.currency := Wallet.currency wallet;
             BalanceResponseDto.lastUpdatedAt := Wallet.updatedAt wallet |}
  end.

Definition getTransactionHistory (walletId : string)
  : M World (list TransactionResponseDto.t) :=
  wallet <- walletRepository_findOne walletId ;;
  match wallet with
  | None => throw (WalletNotFoundException walletId)
  | Some _ =>
      transactions <- transactionRepository_find walletId ;;
      ret (mapToResponseDto <$> transactions)
  end.

(** [createWallet(initialBalance = 0, currency = 'EGP')] *)
Definition createWallet (initialBalance : option Q) (currency : option string)
  : M World Wallet.t :=
  let initialBalance := default 0 initialBalance in
  let currency := default "EGP" currency in
  let wallet := walletRepository_create initialBalance currency in
  walletRepository_save wallet.

Definition validateBalanceConsistency (walletId : string) : M World bool :=
  wallet <- walletRepository_findOne walletId ;;
  match wallet with
  | None => throw (WalletNotFoundException walletId)
  | Some wallet =>
      result <- transactionRepository_sumConvertedAmount walletId ;;
      (* parseFloat(result.sum || '0') *)
      let calculatedBalance := default 0 result in
      let isConsistent :=
        Qltb (Math_abs (Wallet.balance wallet - calculatedBalance)) (1 # 100) in
      ret isConsistent
  end.

End WalletService.

(* ===================================================================== *)
(** ** Running the service on concrete inputs *)

Definition emptyStore : Store := mkStore ∅ [] 0.
Definition emptyWorld : World := mkWorld emptyStore [].

Definition deposit (transactionId walletId : string) (amount : Q) (cur : string)
  : CreateTransactionDto.t :=
  CreateTransactionDto.mk transactionId walletId DEPOSIT amount (Some cur) None.

Definition withdrawal (transactionId walletId : string) (amount : Q) (cur : string)
  : CreateTransactionDto.t :=
  CreateTransactionDto.mk transactionId walletId WITHDRAWAL amount (Some cur) None.

(** A world with one wallet of 1000 EGP, as the integration tests set up. *)
Definition world1000 : World :=
  snd (WalletService.createWallet (Some 1000) (Some "EGP") emptyWorld).
Definition wallet1000 : string :=
  match fst (WalletService.createWallet (Some 1000) (Some "EGP") emptyWorld) with
  | inr w => Wallet.id w
  | inl _ => ""
  end.

(* ===================================================================== *)
(** ** What one attempt reads and writes *)

(** Signed impact of a request whose amount converts to [c]. *)
Definition impactOf (dto : CreateTransactionDto.t) (c : Q) : Q :=
  if decide (CreateTransactionDto.type dto = DEPOSIT) then c else - c.

(** The ledger entity an attempt creates. *)
Definition draftOf (dto : CreateTransactionDto.t) (c : Q) : Transaction.t :=
  em_createTransaction
    (CreateTransactionDto.transactionId dto)
    (CreateTransactionDto.walletId dto)
    (CreateTransactionDto.type dto)
    (CreateTransactionDto.amount dto)
    (orDefault (CreateTransactionDto.currency dto) "EGP")
    (impactOf dto c)
    (CreateTransactionDto.metadata dto).

(** The ledger entity of an attempt once it is saved on store [s]: the
    fields of the request, the generated [id] and [createdAt]. *)
Definition entityOf (dto : CreateTransactionDto.t) (c : Q) (s : Store)
  : Transaction.t :=
  Transaction.mk (freshTransactionId s)
    (CreateTransactionDto.transactionId dto)
    (CreateTransactionDto.walletId dto)
    (CreateTransactionDto.type dto)
    (CreateTransactionDto.amount dto)
    (orDefault (CreateTransactionDto.currency dto) "EGP")
    (impactOf dto c)
    (CreateTransactionDto.metadata dto)
    (clock s).

(** The ledger row an attempt inserts when it commits on store [s]. *)
Definition entryOf (dto : CreateTransactionDto.t) (c : Q) (s : Store)
  : Transaction.t :=
  transactionRow (entityOf dto c s).

(** The wallet row an attempt writes when it commits on store [s]. *)
Definition walletAfter (wallet : Wallet.t) (impact : Q) (s : Store) : Wallet.t :=
  Wallet.mk (Wallet.id wallet) (toDecimal2 (Wallet.balance wallet + impact))
            (Wallet.currency wallet) (Wallet.version wallet + 1)%Z
            (Wallet.createdAt wallet) (clock s).

Definition committed (dto : CreateTransactionDto.t) (wallet : Wallet.t) (c : Q)
  (s : Store) : Store :=
  mkStore (<[Wallet.id wallet := walletAfter wallet (impactOf dto c) s]> (wallets s))
          (transactions s ++ [entryOf dto c s])
          (clock s).

(** What the columns of the two rows ask of a request that converts to [c]
    on the wallet it loaded. *)
Definition storable (dto : CreateTransactionDto.t) (c : Q) (wallet : Wallet.t)
  : Prop :=
  transactionColumnsError (draftOf dto c) = None
  /\ fitsDecimal2 (Wallet.balance wallet + impactOf dto c) = true.

(** The world after [sleep ms]. *)
Definition slept (ms : Z) (w : World) : World :=
  mkWorld (store w) (trace w ++ [EvSleep ms]).

(* ===================================================================== *)
(** ** Observations on a run *)

(** The attempt ended in an optimistic-lock version conflict. *)
Definition isConflict {A} (r : (Exn + A) * World) : bool :=
  match fst r with
  | inl e => isOptimisticLockVersionMismatch e
  | inr _ => false
  end.

(** The delays slept along a trace, in order. *)
Definition delays (tr : list Event) : list Z :=
  flat_map (fun e => match e with EvSleep ms => [ms] | EvTransaction => [] end) tr.

(** The database transactions opened along a trace. *)
Definition attempts (tr : list Event) : nat :=
  length (List.filter (fun e => match e with EvTransaction => true | _ => false end) tr).

(* ===================================================================== *)
(** ** Concurrent callers *)

(** Another caller's whole request, served while this one is suspended. *)
Definition otherCaller (dto : CreateTransactionDto.t) : Store -> Store :=
  fun s => store (snd (WalletService.createTransaction (fun _ => quiet) dto
                         (mkWorld s []))).

(** A store that answers every update of the wallet row with a version
    conflict. *)
Definition contention (attempt : nat) : Interference :=
  {| beforeLoad := fun s => s;
     beforeCommit := fun s => s;
     saveFault := Some VersionConflict |}.

Definition contendedRun : (Exn + TransactionResponseDto.t) * World :=
  WalletService.createTransaction contention
    (deposit "mine" wallet1000 10 "EGP") world1000.

(** Two callers submit the same [transactionId]; the other one commits
    after this caller's lookup has missed and before this caller inserts. *)
Definition race (attempt : nat) : Interference :=
  {| beforeLoad := fun s => s;
     beforeCommit := otherCaller (deposit "dup" wallet1000 200 "EGP");
     saveFault := None |}.

Definition racedRun : (Exn + TransactionResponseDto.t) * World :=
  WalletService.createTransaction race
    (deposit "dup" wallet1000 200 "EGP") world1000.

(** Two callers on the same wallet with different keys; the other one
    commits a deposit of 1 after this caller has loaded the wallet. *)
Definition overlap (attempt : nat) : Interference :=
  {| beforeLoad := fun s => s;
     beforeCommit := otherCaller (deposit "theirs" wallet1000 1 "EGP");
     saveFault := None |}.

Definition overlappedRun : (Exn + TransactionResponseDto.t) * World :=
  WalletService.createTransaction overlap
    (deposit "mine" wallet1000 10 "EGP") world1000.

(** Time passes: the clock of the store moves on by one millisecond. *)
Definition tick (s : Store) : Store :=
  mkStore (wallets s) (transactions s) (clock s + 1).

Definition ticking (attempt : nat) : Interference :=
  {| beforeLoad := tick; beforeCommit := fun s => s; saveFault := None |}.

(* ===================================================================== *)
(** ** Sequences of requests *)

(** No wallet row carries a negative balance. *)
Definition NonNegative (s : Store) : Prop :=
  map_Forall (fun _ wl => 0 <= Wallet.balance wl) (wallets s).

Definition preserves (P : Store -> Prop) (f : Store -> Store) : Prop :=
  forall s, P s -> P (f s).

(** A request reaching the service. *)
Inductive Request :=
| ReqCreateWallet (initialBalance : option Q) (currency : option string)
| ReqCreateTransaction (itf : nat -> Interference) (dto : CreateTransactionDto.t).

Definition serve (w : World) (req : Request) : World :=
  match req with
  | ReqCreateWallet initialBalance currency =>
      snd (WalletService.createWallet initialBalance currency w)
  | ReqCreateTransaction itf dto =>
      snd (WalletService.createTransaction itf dto w)
  end.

Definition serveAll (reqs : list Request) (w : World) : World :=
  foldl serve w reqs.

(** Wallets are created with a non-negative balance, and what the other
    callers commit keeps balances non-negative. *)
Definition admissible (req : Request) : Prop :=
  match req with
  | ReqCreateWallet initialBalance _ => 0 <= default 0 initialBalance
  | ReqCreateTransaction itf _ =>
      forall k, preserves NonNegative (beforeLoad (itf k))
                /\ preserves NonNegative (beforeCommit (itf k))
  end.

(* ===================================================================== *)
(** ** Requests of the test suites *)

(** The 'Balance Consistency' integration test: a wallet created with
    1000 EGP, then a deposit of 500, a withdrawal of 200, a deposit of 100. *)
Definition consistencyRequests : list Request :=
  [ ReqCreateWallet (Some 1000) (Some "EGP");
    ReqCreateTransaction (fun _ => quiet) (deposit "consistency-1" wallet1000 500 "EGP");
    ReqCreateTransaction (fun _ => quiet) (withdrawal "consistency-2" wallet1000 200 "EGP");
    ReqCreateTransaction (fun _ => quiet) (deposit "consistency-3" wallet1000 100 "EGP") ].

Definition consistencyWorld : World := serveAll consistencyRequests emptyWorld.

(** The same requests, a millisecond apart. *)
Definition historyRequests : list Request :=
  [ ReqCreateWallet (Some 1000) (Some "EGP");
    ReqCreateTransaction ticking (deposit "consistency-1" wallet1000 500 "EGP");
    ReqCreateTransaction ticking (withdrawal "consistency-2" wallet1000 200 "EGP");
    ReqCreateTransaction ticking (deposit "consistency-3" wallet1000 100 "EGP") ].

Definition historyWorld : World := serveAll historyRequests emptyWorld.

Definition quietly : nat -> Interference := fun _ => quiet.

(** The first deposit of the idempotency test and the world it leaves. *)
Definition firstDeposit : CreateTransactionDto.t :=
  deposit "idempotent-test-1" wallet1000 100 "EGP".

Definition firstRun : (Exn + TransactionResponseDto.t) * World :=
  WalletService.createTransaction quietly firstDeposit world1000.

(** The ledger row of [firstDeposit]. *)
Definition firstEntry : Transaction.t :=
  entryOf firstDeposit 100 (store world1000).

(** What the first call returns: the entity as it was saved. *)
Definition firstResponse : TransactionResponseDto.t :=
  WalletService.mapToResponseDto
    (entityOf firstDeposit (10000 # 100) (store world1000)).

(** A request reusing the key of [firstDeposit] with another payload. *)
Definition mismatchedReplay : CreateTransactionDto.t :=
  CreateTransactionDto.mk "idempotent-test-1" "no-such-wallet" WITHDRAWAL
    999 (Some "GBP") (Some [("note", "other payload")]).

Definition overdraw : CreateTransactionDto.t :=
  withdrawal "unique-tx-overdraw" wallet1000 2000 "EGP".

(** The wallet row of [world1000]. *)
Definition testWallet : Wallet.t :=
  Wallet.mk wallet1000 (toDecimal2 1000) "EGP" 1 0 0.

(** A wallet opened with half a hundredth: the entity returned and the
    world it leaves. *)
Definition tinyWallet : Wallet.t := Wallet.mk wallet1000 (5 # 1000) "EGP" 1 0 0.

Definition tinyWorld : World :=
  snd (WalletService.createWallet (Some (5 # 1000)) (Some "EGP") emptyWorld).



(* ===================================================================== *)
(** ** Shape of a store *)

(** Every wallet row sits under its own [id]. *)
Definition WellKeyed (s : Store) : Prop :=
  map_Forall (fun k wl => Wallet.id wl = k) (wallets s).

(** Every ledger row belongs to a stored wallet (the [walletId] foreign key). *)
Definition Referenced (s : Store) : Prop :=
  Forall (fun t => is_Some (wallets s !! Transaction.walletId t)) (transactions s).

(** No two ledger rows share a [transactionId]. *)
Definition UniqueKeys (s : Store) : Prop :=
  NoDup (Transaction.transactionId <$> transactions s).

Definition Structured (s : Store) : Prop :=
  WellKeyed s /\ Referenced s /\ UniqueKeys s.

(** Sum of the signed amounts in the ledger of one wallet. *)
Definition ledgerSum (s : Store) (walletId : string) : Q :=
  sumQ (Transaction.convertedAmount <$> transactionsOf s walletId).

(** Interference that keeps [P]. *)
Definition keeps (P : Store -> Prop) (itf : nat -> Interference) : Prop :=
  forall k, preserves P (beforeLoad (itf k)) /\ preserves P (beforeCommit (itf k)).

(** A request whose interference keeps [P]. *)
Definition respects (P : Store -> Prop) (req : Request) : Prop :=
  match req with
  | ReqCreateWallet _ _ => True
  | ReqCreateTransaction itf _ => keeps P itf
  end.

(* ===================================================================== *)
(** ** Basic facts *)

Arguments findWallet : simpl never.
Arguments toDecimal2 : simpl never.
Arguments fitsDecimal2 : simpl never.
Arguments transactionColumnsError : simpl never.
Arguments walletColumnsError : simpl never.
Arguments walletRow : simpl never.
Arguments transactionRow : simpl never.

(** 10 USD are 490 EGP. *)
Example convert_10_USD :
  CurrencyService.toEGP 10 "usd" = inr (49000 # 100).
Proof. vm_compute. reflexivity. Qed.

Lemma Qltb_lt (a b : Q) : Qltb a b = true <-> a < b.
Proof.
  unfold Qltb. rewrite Qlt_alt. destruct (a ?= b); split; congruence.
Qed.

Lemma Qltb_ge (a b : Q) : Qltb a b = false <-> b <= a.
Proof.
  split; intros H.
  - apply Qnot_lt_le. intros Hlt. apply Qltb_lt in Hlt. congruence.
  - destruct (Qltb a b) eqn:E; [|done].
    apply Qltb_lt in E. exfalso. by eapply Qle_not_lt.
Qed.

(** [Math.round] picks the integer whose half-open unit interval holds [x]. *)
Lemma Math_round_unique (x : Q) (k : Z) :
  inject_Z k - (1 # 2) <= x -> x < inject_Z k + (1 # 2) -> Math_round x = k.
Proof.
  intros Hlo Hhi. unfold Math_round.
  assert (H1 : (k <= Qfloor (x + (1 # 2)))%Z).
  { rewrite <- (Qfloor_Z k). apply Qfloor_resp_le. lra. }
  assert (H2 : (Qfloor (x + (1 # 2)) < k + 1)%Z).
  { rewrite Zlt_Qlt, inject_Z_plus.
    pose proof (Qfloor_le (x + (1 # 2))). change (inject_Z 1) with 1. lra. }
  lia.
Qed.

Lemma Math_round_le (x y : Q) : x <= y -> (Math_round x <= Math_round y)%Z.
Proof. intros H. unfold Math_round. apply Qfloor_resp_le. lra. Qed.

(** ** What a [decimal(20,2)] column keeps *)

Lemma roundHalfAway_integer (x : Q) (k : Z) :
  x == inject_Z k -> roundHalfAway x = k.
Proof.
  intros H. unfold roundHalfAway. destruct (Qltb x 0).
  - fold (Math_round (- x)). rewrite (Math_round_unique _ (- k)%Z); [lia| |];
      rewrite inject_Z_opp; lra.
  - fold (Math_round x). apply Math_round_unique; lra.
Qed.

Lemma roundHalfAway_nonneg (x : Q) : 0 <= x -> (0 <= roundHalfAway x)%Z.
Proof.
  intros H. unfold roundHalfAway.
  apply Qltb_ge in H. rewrite H.
  apply Qltb_ge in H.
  change 0%Z with (Math_round 0). apply Math_round_le. done.
Qed.

(** A whole number of hundredths is kept as it is. *)
Lemma toDecimal2_hundredths (x : Q) (k : Z) :
  x == inject_Z k / 100 -> toDecimal2 x == x.
Proof.
  intros H. unfold toDecimal2.
  rewrite (roundHalfAway_integer (x * 100) k); [by rewrite H|].
  rewrite H. field.
Qed.

Lemma toDecimal2_nonneg (x : Q) : 0 <= x -> 0 <= toDecimal2 x.
Proof.
  intros H. unfold toDecimal2.
  assert (H1 : 0 <= x * 100) by lra.
  apply roundHalfAway_nonneg in H1. rewrite Zle_Qle in H1.
  change (inject_Z 0) with 0 in H1.
  set (K := inject_Z (roundHalfAway (x * 100))) in *.
  unfold Qdiv. change (/ 100) with (1 # 100). lra.
Qed.

(** What is kept is a whole number of hundredths, within half a hundredth
    of what was written. *)
Lemma roundHalfAway_near (x : Q) : Qabs (inject_Z (roundHalfAway x) - x) <= 1 # 2.
Proof.
  unfold roundHalfAway. destruct (Qltb x 0).
  - rewrite inject_Z_opp.
    pose proof (Qfloor_le (- x + (1 # 2))) as Hlo.
    pose proof (Qlt_floor (- x + (1 # 2))) as Hhi.
    rewrite inject_Z_plus in Hhi. change (inject_Z 1) with 1 in Hhi.
    set (K := inject_Z (Qfloor (- x + (1 # 2)))) in *.
    apply Qabs_Qle_condition. split; lra.
  - pose proof (Qfloor_le (x + (1 # 2))) as Hlo.
    pose proof (Qlt_floor (x + (1 # 2))) as Hhi.
    rewrite inject_Z_plus in Hhi. change (inject_Z 1) with 1 in Hhi.
    set (K := inject_Z (Qfloor (x + (1 # 2)))) in *.
    apply Qabs_Qle_condition. split; lra.
Qed.

Lemma toDecimal2_near (x : Q) :
  exists n : Z,
    toDecimal2 x = inject_Z n / 100 /\ Qabs (toDecimal2 x - x) <= 1 # 200.
Proof.
  exists (roundHalfAway (x * 100)). split; [reflexivity|].
  pose proof (roundHalfAway_near (x * 100)) as H.
  apply Qabs_Qle_condition in H as [H1 H2].
  apply Qabs_Qle_condition. unfold toDecimal2.
  set (K := inject_Z (roundHalfAway (x * 100))) in *.
  unfold Qdiv. change (/ 100) with (1 # 100). split; lra.
Qed.

(** Ties go away from zero, and what rounds to zero is zero. *)
Example toDecimal2_ties :
  toDecimal2 (5 # 1000) == 1 # 100
  /\ toDecimal2 (- 5 # 1000) == - 1 # 100
  /\ toDecimal2 (1005 # 1000) == 101 # 100
  /\ toDecimal2 (- 1 # 1000) == 0.
Proof. vm_compute. repeat split; reflexivity. Qed.

(** ** Lookups *)

Lemma findWallet_Some (s : Store) (id : string) (wallet : Wallet.t) :
  findWallet s id = inr (Some wallet) <-> wallets s !! id = Some wallet.
Proof.
  unfold findWallet. destruct (wallets s !! id) as [x|].
  - split; congruence.
  - destruct (isUuid id); split; congruence.
Qed.


Lemma findWallet_inl (s : Store) (id : string) (e : Exn) :
  findWallet s id = inl e ->
  wallets s !! id = None /\ isUuid id = false
  /\ e = QueryFailedError "invalid input syntax for type uuid".
Proof.
  unfold findWallet. destruct (wallets s !! id) as [x|]; [discriminate|].
  destruct (isUuid id); [discriminate|]. by intros [= <-].
Qed.


(** What is and what is not the text of a uuid. *)
Example isUuid_examples :
  isUuid "123e4567-e89b-12d3-a456-426614174000" = true
  /\ isUuid "123E4567-E89B-12D3-A456-426614174000" = true
  /\ isUuid "{123e4567-e89b-12d3-a456-426614174000}" = true
  /\ isUuid "123e4567e89b12d3a456426614174000" = true
  /\ isUuid "123e-4567-e89b-12d3-a456-4266-1417-4000" = true
  /\ isUuid "no-such-wallet" = false
  /\ isUuid "" = false
  /\ isUuid "123e4567-e89b-12d3-a456-42661417400" = false
  /\ isUuid "123e4567-e89b-12d3-a456-4266141740000" = false
  /\ isUuid "123e4567-e89b-12d3-a456-42661417400g" = false
  /\ isUuid "1-23e4567-e89b-12d3-a456-426614174000" = false
  /\ isUuid "{123e4567-e89b-12d3-a456-426614174000" = false.
Proof. vm_compute. repeat split; reflexivity. Qed.

Lemma findTransaction_key (s : Store) (k : string) (t : Transaction.t) :
  findTransaction s k = Some t -> Transaction.transactionId t = k.
Proof.
  unfold findTransaction. intros H. apply find_some in H as [_ H].
  by apply bool_decide_eq_true in H.
Qed.

Lemma findTransaction_app_None (s : Store) (k : string) (t : Transaction.t) ws c :
  findTransaction s k = None ->
  Transaction.transactionId t = k ->
  findTransaction (mkStore ws (transactions s ++ [t]) c) k = Some t.
Proof.
  unfold findTransaction. simpl. intros Hnone Hk.
  induction (transactions s) as [|x l IH]; simpl in *.
  - rewrite bool_decide_eq_true_2; done.
  - destruct (bool_decide (Transaction.transactionId x = k)); [done | auto].
Qed.

(** An idempotency hit: the stored entry is mapped and returned; the world
    is left as it was. *)
Lemma createTransaction_hit itf dto (w : World) (tx : Transaction.t) :
  findTransaction (store w) (CreateTransactionDto.transactionId dto) = Some tx ->
  WalletService.createTransaction itf dto w
  = (inr (WalletService.mapToResponseDto tx), w).
Proof.
  intros H. unfold WalletService.createTransaction, bind,
    transactionRepository_findOne, ret. by rewrite H.
Qed.

Lemma createTransaction_miss itf dto (w : World) :
  findTransaction (store w) (CreateTransactionDto.transactionId dto) = None ->
  WalletService.createTransaction itf dto w
  = WalletService.attemptLoop WalletService.MAX_RETRIES 1 itf dto w.
Proof.
  intros H. unfold WalletService.createTransaction, bind,
    transactionRepository_findOne. by rewrite H.
Qed.

(* ===================================================================== *)
(** ** One attempt, case by case *)

Ltac exec_unfold :=
  unfold WalletService.executeTransaction, dataSource_transaction, bind,
    interfere, em_findOneWallet, liftE, throw, ret, em_saveTransaction,
    em_saveWallet, WalletService.setBalance, commitWrites; simpl.

(** A successful attempt: what was read, what was checked, what was written. *)
Lemma executeTransaction_inr itf dto (w w' : World) r :
  WalletService.executeTransaction itf dto w = (inr r, w') ->
  let s1 := beforeLoad itf (store w) in
  let s2 := beforeCommit itf s1 in
  exists wallet c,
    wallets s1 !! CreateTransactionDto.walletId dto = Some wallet
    /\ CurrencyService.toEGP (CreateTransactionDto.amount dto)
         (orDefault (CreateTransactionDto.currency dto) "EGP") = inr c
    /\ 0 <= Wallet.balance wallet + impactOf dto c
    /\ findTransaction s2 (CreateTransactionDto.transactionId dto) = None
    /\ saveFault itf = None
    /\ storable dto c wallet
    /\ r = WalletService.mapToResponseDto (entityOf dto c s2)
    /\ w' = mkWorld (committed dto wallet c s2) (trace w ++ [EvTransaction]).
Proof.
  exec_unfold. intros H.
  destruct (findWallet (beforeLoad itf (store w)) (CreateTransactionDto.walletId dto))
    as [e|[wallet|]] eqn:Hw; [discriminate| |discriminate].
  destruct (CurrencyService.toEGP _ _) as [e|c] eqn:Hc; [discriminate|].
  fold (impactOf dto c) in H. fold (draftOf dto c) in H.
  destruct (Qltb _ 0) eqn:Hneg; [discriminate|]. simpl in H.
  destruct (transactionColumnsError (draftOf dto c)) eqn:Hcols; [discriminate|].
  destruct (findTransaction _ _) eqn:Hf; [discriminate|]. simpl in H.
  destruct (saveFault itf) eqn:Hfault; [discriminate|].
  destruct (fitsDecimal2 _) eqn:Hfit; [|discriminate].
  simpl in H. injection H as <- <-.
  exists wallet, c. apply Qltb_ge in Hneg. apply findWallet_Some in Hw.
  done.
Qed.

(** The same, read forwards. *)
Lemma executeTransaction_commits itf dto (w : World) wallet c :
  let s1 := beforeLoad itf (store w) in
  let s2 := beforeCommit itf s1 in
  wallets s1 !! CreateTransactionDto.walletId dto = Some wallet ->
  CurrencyService.toEGP (CreateTransactionDto.amount dto)
    (orDefault (CreateTransactionDto.currency dto) "EGP") = inr c ->
  0 <= Wallet.balance wallet + impactOf dto c ->
  findTransaction s2 (CreateTransactionDto.transactionId dto) = None ->
  saveFault itf = None ->
  storable dto c wallet ->
  WalletService.executeTransaction itf dto w
  = (inr (WalletService.mapToResponseDto (entityOf dto c s2)),
     mkWorld (committed dto wallet c s2) (trace w ++ [EvTransaction])).
Proof.
  intros s1 s2 Hw Hc Hnn Hf Hfault [Hcols Hfit]. subst s1 s2. exec_unfold.
  apply findWallet_Some in Hw. rewrite Hw, Hc.
  fold (impactOf dto c). fold (draftOf dto c).
  apply Qltb_ge in Hnn. rewrite Hnn. simpl.
  rewrite Hcols, Hf. simpl. rewrite Hfault, Hfit. reflexivity.
Qed.

(** A failed attempt writes nothing: the store is what the other callers
    made of it. *)
Lemma executeTransaction_inl itf dto (w w' : World) e :
  WalletService.executeTransaction itf dto w = (inl e, w') ->
  trace w' = (trace w ++ [EvTransaction])%list
  /\ (store w' = beforeLoad itf (store w)
      \/ store w' = beforeCommit itf (beforeLoad itf (store w))).
Proof.
  exec_unfold. intros H.
  destruct (findWallet (beforeLoad itf (store w)) (CreateTransactionDto.walletId dto))
    as [e0|[wallet|]] eqn:Hw; [injection H as <- <-; auto| |injection H as <- <-; auto].
  destruct (CurrencyService.toEGP _ _) as [e'|c] eqn:Hc;
    [injection H as <- <-; auto|].
  fold (impactOf dto c) in H. fold (draftOf dto c) in H.
  destruct (Qltb _ 0) eqn:Hneg; [injection H as <- <-; auto|]. simpl in H.
  destruct (transactionColumnsError (draftOf dto c)) eqn:Hcols;
    [injection H as <- <-; auto|].
  destruct (findTransaction _ _) eqn:Hf; [injection H as <- <-; auto|].
  simpl in H.
  destruct (saveFault itf) eqn:Hfault; [injection H as <- <-; auto|].
  destruct (fitsDecimal2 _) eqn:Hfit; [discriminate|].
  injection H as <- <-; auto.
Qed.

(* ===================================================================== *)
(** ** The retry loop *)

Arguments WalletService.attemptLoop : simpl never.

(** One iteration of the loop. *)
Lemma attemptLoop_step remaining attempt itf dto (w : World) :
  WalletService.attemptLoop (S remaining) attempt itf dto w
  = match WalletService.executeTransaction (itf attempt) dto w with
    | (inr r, w') => (inr r, w')
    | (inl e, w') =>
        if isOptimisticLockVersionMismatch e
           && (attempt <? WalletService.MAX_RETRIES)%nat
        then WalletService.attemptLoop remaining (S attempt) itf dto
               (slept (Math_pow 2 (Z.of_nat attempt) * 100)%Z w')
        else (inl e, w')
    end.
Proof.
  unfold WalletService.attemptLoop at 1. fold WalletService.attemptLoop.
  unfold tryCatch.
  destruct (WalletService.executeTransaction (itf attempt) dto w) as [[e|r] w'];
    [|done].
  destruct (isOptimisticLockVersionMismatch e && _); done.
Qed.

(** A result of the loop is the result of one of its attempts; without
    interference that attempt started from the store the loop started
    from. *)
Lemma attemptLoop_inr remaining attempt itf dto (w w' : World) r :
  WalletService.attemptLoop remaining attempt itf dto w = (inr r, w') ->
  exists k wk,
    WalletService.executeTransaction (itf k) dto wk = (inr r, w')
    /\ ((forall j, itf j = quiet) -> store wk = store w).
Proof.
  revert attempt w. induction remaining as [|n IH]; intros attempt w H.
  - discriminate.
  - rewrite attemptLoop_step in H.
    destruct (WalletService.executeTransaction (itf attempt) dto w)
      as [[e|r0] w0] eqn:E.
    + destruct (isOptimisticLockVersionMismatch e && _); [|discriminate].
      apply IH in H as (k & wk & Hk & Hs). exists k, wk. split; [done|].
      intros Hq. rewrite (Hs Hq). simpl.
      apply executeTransaction_inl in E as [_ [E|E]];
        rewrite E, Hq; reflexivity.
    + injection H as <- <-. eauto.
Qed.

(* ===================================================================== *)
(** ** Idempotency *)

(** What [toEGP] returns is a whole number of hundredths. *)
Lemma toEGP_hundredths (amount : Q) (cur : string) (c : Q) :
  CurrencyService.toEGP amount cur = inr c -> exists k : Z, c = inject_Z k / 100.
Proof.
  unfold CurrencyService.toEGP, CurrencyService.convert.
  destruct (CurrencyService.unsupported _); [discriminate|].
  destruct (CurrencyService.unsupported _); [discriminate|].
  intros [= <-]. eauto.
Qed.

(** So is the impact, and the [convertedAmount] column keeps it as it is. *)
Lemma impact_hundredths dto (amount : Q) (cur : string) (c : Q) :
  CurrencyService.toEGP amount cur = inr c ->
  exists i : Z, impactOf dto c == inject_Z i / 100.
Proof.
  intros H. apply toEGP_hundredths in H as [k ->]. unfold impactOf.
  destruct (decide _).
  - by exists k.
  - exists (- k)%Z. rewrite inject_Z_opp. field.
Qed.

Lemma toDecimal2_impact dto (amount : Q) (cur : string) (c : Q) :
  CurrencyService.toEGP amount cur = inr c ->
  toDecimal2 (impactOf dto c) == impactOf dto c.
Proof.
  intros H. destruct (impact_hundredths dto _ _ _ H) as [i Hi].
  by apply (toDecimal2_hundredths _ i).
Qed.

(** The wallet row of a commit holds the sum, when the balance loaded is a
    whole number of hundredths. *)
Lemma walletAfter_balance dto (amount : Q) (cur : string) (c : Q) wallet (s : Store)
  (j : Z) :
  CurrencyService.toEGP amount cur = inr c ->
  Wallet.balance wallet == inject_Z j / 100 ->
  Wallet.balance (walletAfter wallet (impactOf dto c) s)
  == Wallet.balance wallet + impactOf dto c.
Proof.
  intros H Hj. destruct (impact_hundredths dto _ _ _ H) as [i Hi].
  simpl. apply (toDecimal2_hundredths _ (j + i)).
  rewrite Hj, Hi, inject_Z_plus. field.
Qed.

(** C10.  An idempotency hit looks at the [transactionId] alone: whatever
    wallet, type, amount, currency and metadata the request carries, the
    stored entry is returned as it is, no error is raised and the world is
    unchanged. *)
Theorem idempotency_hit_ignores_payload
  itf (w : World) (tx : Transaction.t)
  (transactionId walletId : string) (type : TransactionType) (amount : Q)
  (currency : option string) (metadata : option Metadata) :
  findTransaction (store w) transactionId = Some tx ->
  WalletService.createTransaction itf
    (CreateTransactionDto.mk transactionId walletId type amount currency metadata) w
  = (inr {| TransactionResponseDto.id := Transaction.id tx;
            TransactionResponseDto.transactionId := transactionId;
            TransactionResponseDto.walletId := Transaction.walletId tx;
            TransactionResponseDto.type := Transaction.type tx;
            TransactionResponseDto.amount := Transaction.amount tx;
            TransactionResponseDto.currency := Transaction.currency tx;
            TransactionResponseDto.convertedAmount := Transaction.convertedAmount tx;
            TransactionResponseDto.metadata := Transaction.metadata tx;
            TransactionResponseDto.createdAt := Transaction.createdAt tx |},
     w).
Proof.
  intros H. rewrite (createTransaction_hit _ _ _ tx) by done.
  apply findTransaction_key in H. unfold WalletService.mapToResponseDto.
  by rewrite H.
Qed.

(** C1.  Once a call for some [transactionId] has returned an entry, the
    ledger holds a row under that key with the [id] of the entry returned,
    and any later call with the same [transactionId] returns that row, so
    the same [id], and leaves the world untouched: no database transaction
    is opened, no row is inserted, no wallet is rewritten.  If the row was
    already stored when the first call started, the first call itself was
    such a replay.  Otherwise the first call committed this one row, with
    the amount of the request as the column keeps it (two decimals),
    together with one update of the wallet it had loaded, to
    [balance + convertedAmount] (a balance of whole hundredths and amounts
    up to 10^12, where the sum is exact); every other wallet row is as the
    other callers left it. *)
Theorem idempotent_replay
  itf1 itf2 (dto1 dto2 : CreateTransactionDto.t) (w w1 : World)
  (r : TransactionResponseDto.t) :
  CreateTransactionDto.transactionId dto2 = CreateTransactionDto.transactionId dto1 ->
  WalletService.createTransaction itf1 dto1 w = (inr r, w1) ->
  exists tx : Transaction.t,
    findTransaction (store w1) (CreateTransactionDto.transactionId dto1) = Some tx
    /\ Transaction.id tx = TransactionResponseDto.id r
    /\ TransactionResponseDto.transactionId r = CreateTransactionDto.transactionId dto1
    /\ Transaction.convertedAmount tx == TransactionResponseDto.convertedAmount r
    /\ WalletService.createTransaction itf2 dto2 w1
       = (inr {| TransactionResponseDto.id := TransactionResponseDto.id r;
                 TransactionResponseDto.transactionId :=
                   CreateTransactionDto.transactionId dto1;
                 TransactionResponseDto.walletId := Transaction.walletId tx;
                 TransactionResponseDto.type := Transaction.type tx;
                 TransactionResponseDto.amount := Transaction.amount tx;
                 TransactionResponseDto.currency := Transaction.currency tx;
                 TransactionResponseDto.convertedAmount := Transaction.convertedAmount tx;
                 TransactionResponseDto.metadata := Transaction.metadata tx;
                 TransactionResponseDto.createdAt := Transaction.createdAt tx |},
          w1)
    /\ (forall tx0,
          findTransaction (store w) (CreateTransactionDto.transactionId dto1) = Some tx0 ->
          tx = tx0 /\ w1 = w)
    /\ (findTransaction (store w) (CreateTransactionDto.transactionId dto1) = None ->
        TransactionResponseDto.amount r = CreateTransactionDto.amount dto1
        /\ Transaction.amount tx = toDecimal2 (CreateTransactionDto.amount dto1)
        /\ exists s1 s2 wallet row,
             wallets s1 !! CreateTransactionDto.walletId dto1 = Some wallet
             /\ findTransaction s2 (CreateTransactionDto.transactionId dto1) = None
             /\ 0 <= Wallet.balance wallet + TransactionResponseDto.convertedAmount r
             /\ transactions (store w1) = (transactions s2 ++ [tx])%list
             /\ wallets (store w1) !! Wallet.id wallet = Some row
             /\ (forall j : Z,
                   Wallet.balance wallet == inject_Z j / 100 ->
                   (0 <= j <= 10 ^ 14)%Z ->
                   Qabs (TransactionResponseDto.convertedAmount r)
                   <= inject_Z (10 ^ 12) ->
                   Wallet.balance row
                   == Wallet.balance wallet
                      + TransactionResponseDto.convertedAmount r)
             /\ (forall k, k <> Wallet.id wallet ->
                   wallets (store w1) !! k = wallets s2 !! k)
             /\ ((forall k, itf1 k = quiet) -> s1 = store w /\ s2 = store w)).
Proof.
  intros Hid H1.
  destruct (findTransaction (store w) (CreateTransactionDto.transactionId dto1))
    as [tx|] eqn:Hf.
  - rewrite (createTransaction_hit _ _ _ tx) in H1 by done.
    injection H1 as <- <-. exists tx.
    pose proof (findTransaction_key _ _ _ Hf) as Hkey.
    split; [done|]. split; [done|]. split; [done|]. split; [reflexivity|].
    split; [|split].
    + rewrite (createTransaction_hit _ _ _ tx) by (by rewrite Hid).
      unfold WalletService.mapToResponseDto. simpl. by rewrite Hkey.
    + intros tx' [= <-]. done.
    + discriminate.
  - rewrite createTransaction_miss in H1 by done.
    destruct (attemptLoop_inr _ _ _ _ _ _ _ H1) as (k & wk & Hk & Hs).
    apply executeTransaction_inr in Hk
      as (wallet & c & Hw & Hc & Hnn & Hnone & _ & _ & -> & ->).
    set (s1 := beforeLoad (itf1 k) (store wk)) in *.
    set (s2 := beforeCommit (itf1 k) s1) in *.
    exists (entryOf dto1 c s2).
    split.
    { unfold committed. simpl. by apply findTransaction_app_None. }
    split; [done|]. split; [done|].
    split. { simpl. exact (toDecimal2_impact dto1 _ _ _ Hc). }
    split; [|split].
    + rewrite (createTransaction_hit _ _ _ (entryOf dto1 c s2)); [done|].
      rewrite Hid. unfold committed. simpl. by apply findTransaction_app_None.
    + discriminate.
    + intros _. split; [done|]. split; [done|].
      exists s1, s2, wallet, (walletAfter wallet (impactOf dto1 c) s2).
      split; [done|]. split; [done|]. split; [done|]. split; [done|].
      split. { unfold committed. simpl. apply lookup_insert_eq. }
      split.
      { intros j Hj _ _.
        exact (walletAfter_balance dto1 _ _ c wallet s2 j Hc Hj). }
      split.
      * intros k' Hk'. unfold committed. simpl. by apply lookup_insert_ne.
      * intros Hq. subst s2 s1. rewrite Hq, (Hs Hq). done.
Qed.

(* ===================================================================== *)
(** ** Retry schedule *)

(** Every attempt opens exactly one database transaction and sleeps never. *)
Lemma executeTransaction_trace itf dto (w : World) :
  trace (snd (WalletService.executeTransaction itf dto w))
  = (trace w ++ [EvTransaction])%list.
Proof.
  destruct (WalletService.executeTransaction itf dto w) as [[e|r] w'] eqn:E.
  - by apply executeTransaction_inl in E as [E _].
  - apply executeTransaction_inr in E as (? & ? & ? & ? & ? & ? & ? & ? & ? & ->).
    done.
Qed.

(** The loop, unrolled: at most three attempts, the next one only after a
    version conflict, 200 ms and 400 ms apart. *)
Lemma createTransaction_three_attempts itf dto (w : World) :
  findTransaction (store w) (CreateTransactionDto.transactionId dto) = None ->
  let a1 := WalletService.executeTransaction (itf 1%nat) dto w in
  let a2 := WalletService.executeTransaction (itf 2%nat) dto (slept 200 (snd a1)) in
  let a3 := WalletService.executeTransaction (itf 3%nat) dto (slept 400 (snd a2)) in
  WalletService.createTransaction itf dto w
  = (if isConflict a1 then if isConflict a2 then a3 else a2 else a1).
Proof.
  intros Hmiss a1 a2 a3. subst a3 a2 a1.
  rewrite createTransaction_miss by done.
  unfold WalletService.MAX_RETRIES, isConflict.
  rewrite attemptLoop_step.
  destruct (WalletService.executeTransaction (itf 1%nat) dto w)
    as [[e1|r1] w1]; cbn [fst snd]; [|done].
  destruct (isOptimisticLockVersionMismatch e1); cbn [andb]; [|done].
  change (1 <? 3)%nat with true. cbn iota.
  rewrite attemptLoop_step.
  change (Math_pow 2 (Z.of_nat 1) * 100)%Z with 200%Z.
  destruct (WalletService.executeTransaction (itf 2%nat) dto (slept 200 w1))
    as [[e2|r2] w2]; cbn [fst snd]; [|done].
  destruct (isOptimisticLockVersionMismatch e2); cbn [andb]; [|done].
  change (2 <? WalletService.MAX_RETRIES)%nat with true. cbn iota.
  rewrite attemptLoop_step.
  change (Math_pow 2 (Z.of_nat 2) * 100)%Z with 400%Z.
  destruct (WalletService.executeTransaction (itf 3%nat) dto (slept 400 w2))
    as [[e3|r3] w3]; [|done].
  change (3 <? WalletService.MAX_RETRIES)%nat with false.
  by rewrite andb_false_r.
Qed.

(** C5 (amended).  When the lookup misses, [createTransaction] makes at most
    three attempts.  It moves on to the next attempt only when the current
    one ended in a version conflict, sleeping 200 ms after the first attempt
    and 400 ms after the second ([2^attempt * 100]); any other outcome, and
    the outcome of the third attempt whatever it is, is the outcome of the
    call.  The trace shows one transaction per attempt and these sleeps
    only. *)
Theorem retry_schedule itf dto (w : World) :
  findTransaction (store w) (CreateTransactionDto.transactionId dto) = None ->
  let a1 := WalletService.executeTransaction (itf 1%nat) dto w in
  let a2 := WalletService.executeTransaction (itf 2%nat) dto (slept 200 (snd a1)) in
  let a3 := WalletService.executeTransaction (itf 3%nat) dto (slept 400 (snd a2)) in
  let run := WalletService.createTransaction itf dto w in
  run = (if isConflict a1 then if isConflict a2 then a3 else a2 else a1)
  /\ trace (snd run)
     = (trace w ++
        (if isConflict a1
         then if isConflict a2
              then [EvTransaction; EvSleep 200; EvTransaction; EvSleep 400; EvTransaction]
              else [EvTransaction; EvSleep 200; EvTransaction]
         else [EvTransaction]))%list
  /\ delays (trace (snd run))
     = (delays (trace w) ++
        (if isConflict a1 then if isConflict a2 then [200; 400] else [200] else []))%Z%list
  /\ (attempts (trace (snd run)) <= attempts (trace w) + 3)%nat.
Proof.
  intros Hmiss a1 a2 a3 run.
  pose proof (createTransaction_three_attempts itf dto w Hmiss) as Hrun.
  cbv zeta in Hrun. fold a1 a2 a3 run in Hrun.
  assert (Htr : trace (snd run)
     = (trace w ++
        (if isConflict a1
         then if isConflict a2
              then [EvTransaction; EvSleep 200; EvTransaction; EvSleep 400; EvTransaction]
              else [EvTransaction; EvSleep 200; EvTransaction]
         else [EvTransaction]))%list).
  { rewrite Hrun.
    assert (T1 : trace (snd a1) = (trace w ++ [EvTransaction])%list)
      by apply executeTransaction_trace.
    assert (T2 : trace (snd a2)
                 = (trace w ++ [EvTransaction; EvSleep 200; EvTransaction])%list).
    { subst a2. rewrite executeTransaction_trace. simpl. rewrite T1.
      by rewrite <- !app_assoc. }
    assert (T3 : trace (snd a3)
                 = (trace w ++ [EvTransaction; EvSleep 200; EvTransaction;
                                EvSleep 400; EvTransaction])%list).
    { subst a3. rewrite executeTransaction_trace. simpl. rewrite T2.
      by rewrite <- !app_assoc. }
    destruct (isConflict a1); [|done]. destruct (isConflict a2); done. }
  split; [done|]. split; [done|]. rewrite Htr. split.
  - unfold delays. rewrite flat_map_app.
    destruct (isConflict a1); [destruct (isConflict a2)|]; reflexivity.
  - unfold attempts. rewrite List.filter_app, length_app.
    destruct (isConflict a1); [destruct (isConflict a2)|]; simpl; lia.
Qed.

(** An attempt ends in a version conflict only when the store answers its
    update of the wallet row with one: neither the load nor the save
    compares versions. *)
Lemma executeTransaction_conflict itf dto (w w' : World) :
  WalletService.executeTransaction itf dto w
  = (inl OptimisticLockVersionMismatchError, w') ->
  saveFault itf = Some VersionConflict.
Proof.
  exec_unfold. intros H.
  destruct (findWallet (beforeLoad itf (store w)) (CreateTransactionDto.walletId dto))
    as [e0|[wallet|]] eqn:Hw; [|  |discriminate].
  { apply findWallet_inl in Hw as (_ & _ & ->). discriminate. }
  destruct (CurrencyService.toEGP _ _) as [e'|c] eqn:Hc.
  { unfold CurrencyService.toEGP, CurrencyService.convert in Hc.
    destruct (CurrencyService.unsupported _); [injection Hc as <-; discriminate|].
    destruct (CurrencyService.unsupported _); [injection Hc as <-|]; discriminate. }
  fold (impactOf dto c) in H. fold (draftOf dto c) in H.
  destruct (Qltb _ 0); [discriminate|]. simpl in H.
  destruct (transactionColumnsError (draftOf dto c)); [discriminate|].
  destruct (findTransaction _ _); [discriminate|]. simpl in H.
  destruct (saveFault itf) as [[|d]|]; [done|discriminate|].
  destruct (fitsDecimal2 _); discriminate.
Qed.

(** C5, as stated, fails: when the store answers all three attempts with a
    version conflict the delays are 200 ms and 400 ms; no delay of 100 ms
    is ever slept and there is no third delay. *)
Lemma retry_delays_counterexample :
  (forall attempt, saveFault (contention attempt) = Some VersionConflict)
  /\ delays (trace (snd contendedRun)) = [200; 400]%Z
  /\ delays (trace (snd contendedRun)) <> [100; 200; 400]%Z
  /\ attempts (trace (snd contendedRun)) = 3%nat.
Proof.
  split; [reflexivity|]. vm_compute.
  split; [reflexivity|]. split; [discriminate|reflexivity].
Qed.

(* ===================================================================== *)
(** ** Exhausted retries *)

(** The error thrown after the loop cannot be reached: a fourth iteration
    is never entered, because the third attempt never retries. *)
Lemma attemptLoop_last attempt itf dto (w : World) :
  (WalletService.MAX_RETRIES <= attempt)%nat ->
  WalletService.attemptLoop 1 attempt itf dto w
  = WalletService.executeTransaction (itf attempt) dto w.
Proof.
  intros H. rewrite attemptLoop_step.
  destruct (WalletService.executeTransaction (itf attempt) dto w) as [[e|r] w'];
    [|done].
  replace (attempt <? WalletService.MAX_RETRIES)%nat with false
    by (symmetry; apply Nat.ltb_ge; done).
  by rewrite andb_false_r.
Qed.

(** No attempt throws the error written for exhausted retries. *)
Lemma executeTransaction_not_exhausted itf dto (w w' : World) e :
  WalletService.executeTransaction itf dto w = (inl e, w') ->
  e <> Error "Transaction failed after maximum retries".
Proof.
  exec_unfold. intros H.
  destruct (findWallet (beforeLoad itf (store w)) (CreateTransactionDto.walletId dto))
    as [e0|[wallet|]] eqn:Hw; [| |injection H as <- <-; discriminate].
  { apply findWallet_inl in Hw as (_ & _ & ->). injection H as <- <-. discriminate. }
  destruct (CurrencyService.toEGP _ _) as [e'|c] eqn:Hc.
  - injection H as <- <-.
    unfold CurrencyService.toEGP, CurrencyService.convert in Hc.
    destruct (CurrencyService.unsupported _); [injection Hc as <-; discriminate|].
    destruct (CurrencyService.unsupported _); [injection Hc as <-|]; discriminate.
  - fold (impactOf dto c) in H. fold (draftOf dto c) in H.
    destruct (Qltb _ 0); [injection H as <- <-; discriminate|]. simpl in H.
    destruct (transactionColumnsError (draftOf dto c));
      [injection H as <- <-; discriminate|].
    destruct (findTransaction _ _); [injection H as <- <-; discriminate|].
    simpl in H.
    destruct (saveFault itf) as [[|d]|]; [injection H as <- <-; discriminate..|].
    destruct (fitsDecimal2 _); [discriminate|].
    injection H as <- <-. discriminate.
Qed.

(** Hence no call does: whatever the store does, [createTransaction] never
    ends with that error. *)
Lemma max_retries_error_unreachable itf dto (w : World) :
  fst (WalletService.createTransaction itf dto w)
  <> inl (Error "Transaction failed after maximum retries").
Proof.
  destruct (findTransaction (store w) (CreateTransactionDto.transactionId dto))
    as [tx|] eqn:Hf.
  - rewrite (createTransaction_hit _ _ _ tx) by done. discriminate.
  - rewrite createTransaction_three_attempts by done.
    assert (Hx : forall i (v : World),
              fst (WalletService.executeTransaction i dto v)
              <> inl (Error "Transaction failed after maximum retries")).
    { intros i v.
      destruct (WalletService.executeTransaction i dto v) as [[e|r] v'] eqn:E;
        [|discriminate].
      apply executeTransaction_not_exhausted in E. simpl. congruence. }
    destruct (isConflict _); [destruct (isConflict _)|]; apply Hx.
Qed.

(** Three version conflicts in a row surface the third one, whatever the
    request and the world. *)
Lemma three_conflicts_surface_the_last itf dto (w : World) :
  findTransaction (store w) (CreateTransactionDto.transactionId dto) = None ->
  let a1 := WalletService.executeTransaction (itf 1%nat) dto w in
  let a2 := WalletService.executeTransaction (itf 2%nat) dto (slept 200 (snd a1)) in
  let a3 := WalletService.executeTransaction (itf 3%nat) dto (slept 400 (snd a2)) in
  isConflict a1 = true -> isConflict a2 = true -> isConflict a3 = true ->
  fst (WalletService.createTransaction itf dto w)
  = inl OptimisticLockVersionMismatchError.
Proof.
  intros Hmiss a1 a2 a3 H1 H2 H3.
  rewrite createTransaction_three_attempts by done.
  fold a1 a2 a3. rewrite H1, H2.
  unfold isConflict in H3. destruct (fst a3) as [[]|]; done.
Qed.

(** C6.  Three attempts, each answered by the store with a version
    conflict: the call ends with the conflict error of the third attempt
    itself, after sleeping 200 ms and 400 ms; the error written for
    exhausted retries is not what the caller receives. *)
Theorem exhausted_retries_surface_raw_conflict :
  (forall attempt, saveFault (contention attempt) = Some VersionConflict)
  /\ fst contendedRun = inl OptimisticLockVersionMismatchError
  /\ fst contendedRun <> inl (Error "Transaction failed after maximum retries")
  /\ trace (snd contendedRun)
     = [EvTransaction; EvSleep 200; EvTransaction; EvSleep 400; EvTransaction].
Proof.
  split; [reflexivity|]. vm_compute.
  split; [reflexivity|]. split; [discriminate|reflexivity].
Qed.

(* ===================================================================== *)
(** ** Duplicate key after a missed lookup *)

(** The unique index rejects the insert; nothing catches that error. *)
Lemma unique_violation_is_rethrown itf dto (w : World) wallet c tx :
  let s1 := beforeLoad (itf 1%nat) (store w) in
  let s2 := beforeCommit (itf 1%nat) s1 in
  findTransaction (store w) (CreateTransactionDto.transactionId dto) = None ->
  wallets s1 !! CreateTransactionDto.walletId dto = Some wallet ->
  CurrencyService.toEGP (CreateTransactionDto.amount dto)
    (orDefault (CreateTransactionDto.currency dto) "EGP") = inr c ->
  0 <= Wallet.balance wallet + impactOf dto c ->
  transactionColumnsError (draftOf dto c) = None ->
  findTransaction s2 (CreateTransactionDto.transactionId dto) = Some tx ->
  WalletService.createTransaction itf dto w
  = (inl (QueryFailedError (CreateTransactionDto.transactionId dto)),
     mkWorld s2 (trace w ++ [EvTransaction])).
Proof.
  intros s1 s2 Hmiss Hw Hc Hnn Hcols Hdup. subst s1 s2.
  rewrite createTransaction_miss by done.
  unfold WalletService.MAX_RETRIES. rewrite attemptLoop_step.
  exec_unfold. apply findWallet_Some in Hw. rewrite Hw, Hc.
  fold (impactOf dto c). fold (draftOf dto c).
  apply Qltb_ge in Hnn. rewrite Hnn. simpl. by rewrite Hcols, Hdup.
Qed.

(** C7.  The lookup of this caller misses, the other caller's entry with
    the same [transactionId] is committed before this caller's insert, and
    the call ends with the store's uniqueness error although the winning
    entry is there to be read; the deposit is applied once. *)
Theorem lost_uniqueness_race_surfaces_error :
  findTransaction (store world1000) "dup" = None
  /\ fst racedRun = inl (QueryFailedError "dup")
  /\ Transaction.transactionId <$> findTransaction (store (snd racedRun)) "dup"
     = Some "dup"
  /\ length (transactions (store (snd racedRun))) = 1%nat
  /\ match wallets (store (snd racedRun)) !! wallet1000 with
     | Some wl => Wallet.balance wl == 1200
     | None => False
     end.
Proof. vm_compute. repeat split; reflexivity. Qed.

(* ===================================================================== *)
(** ** Insufficient funds *)

(** C4.  When the wallet an attempt has loaded cannot cover the request
    ([balance + impact < 0]), the call fails at once with
    [InsufficientFundsException]: the body carries the loaded balance, the
    magnitude of the impact (its absolute value, so never negative, and the
    converted amount itself for a withdrawal) and their difference, which is
    strictly positive; one database transaction was opened and nothing
    slept, so there is no retry; the store holds what the other callers
    committed before the load and nothing of this call (with no
    interference, exactly the store the call started from). *)
Theorem insufficient_funds_fails_fast itf dto (w : World) wallet c :
  let s1 := beforeLoad (itf 1%nat) (store w) in
  let requested := Qabs (impactOf dto c) in
  findTransaction (store w) (CreateTransactionDto.transactionId dto) = None ->
  wallets s1 !! CreateTransactionDto.walletId dto = Some wallet ->
  CurrencyService.toEGP (CreateTransactionDto.amount dto)
    (orDefault (CreateTransactionDto.currency dto) "EGP") = inr c ->
  Wallet.balance wallet + impactOf dto c < 0 ->
  WalletService.createTransaction itf dto w
  = (inl (InsufficientFunds
            {| statusCode := 400;
               message := "Insufficient funds";
               error := "INSUFFICIENT_FUNDS";
               details := Some {| currentBalance := Wallet.balance wallet;
                                  requestedAmount := requested;
                                  shortfall := requested - Wallet.balance wallet |} |}),
     mkWorld s1 (trace w ++ [EvTransaction]))
  /\ 0 <= requested
  /\ (requested == impactOf dto c \/ requested == - impactOf dto c)
  /\ (CreateTransactionDto.type dto = WITHDRAWAL -> 0 <= c -> requested == c)
  /\ 0 < requested - Wallet.balance wallet
  /\ (itf 1%nat = quiet -> s1 = store w).
Proof.
  intros s1 requested Hmiss Hw Hc Hneg. subst s1 requested.
  split; [|split; [|split; [|split; [|split]]]].
  - rewrite createTransaction_miss by done.
    unfold WalletService.MAX_RETRIES. rewrite attemptLoop_step.
    exec_unfold. apply findWallet_Some in Hw. rewrite Hw, Hc.
    fold (impactOf dto c).
    apply Qltb_lt in Hneg. rewrite Hneg. reflexivity.
  - apply Qabs_nonneg.
  - destruct (Qlt_le_dec (impactOf dto c) 0) as [Hi|Hi].
    + right. apply Qabs_neg. lra.
    + left. by apply Qabs_pos.
  - intros Hty Hc0. unfold impactOf. rewrite Hty.
    destruct (decide (WITHDRAWAL = DEPOSIT)); [discriminate|].
    rewrite Qabs_opp. by apply Qabs_pos.
  - pose proof (Qle_Qabs (- impactOf dto c)) as H1. rewrite Qabs_opp in H1. lra.
  - intros ->. reflexivity.
Qed.

(* ===================================================================== *)
(** ** Balances never go negative *)

Lemma createWallet_NonNegative initialBalance currency (w : World) :
  0 <= default 0 initialBalance ->
  NonNegative (store w) ->
  NonNegative (store (snd (WalletService.createWallet initialBalance currency w))).
Proof.
  intros Hb Hs. unfold WalletService.createWallet, walletRepository_save.
  destruct (walletColumnsError _); [done|]. simpl.
  unfold NonNegative. simpl.
  apply map_Forall_insert_2; [|done].
  unfold walletRow. simpl. by apply toDecimal2_nonneg.
Qed.

Lemma executeTransaction_NonNegative itf dto (w : World) :
  preserves NonNegative (beforeLoad itf) ->
  preserves NonNegative (beforeCommit itf) ->
  NonNegative (store w) ->
  NonNegative (store (snd (WalletService.executeTransaction itf dto w))).
Proof.
  intros Hl Hc Hs.
  destruct (WalletService.executeTransaction itf dto w) as [[e|r] w'] eqn:E.
  - apply executeTransaction_inl in E as [_ [E|E]]; simpl; rewrite E; auto.
  - apply executeTransaction_inr in E
      as (wallet & c & _ & _ & Hnn & _ & _ & _ & _ & ->).
    simpl. unfold NonNegative, committed. simpl.
    apply map_Forall_insert_2; [by apply toDecimal2_nonneg|]. apply Hc, Hl, Hs.
Qed.

Lemma attemptLoop_NonNegative remaining attempt itf dto (w : World) :
  (forall k, preserves NonNegative (beforeLoad (itf k))
             /\ preserves NonNegative (beforeCommit (itf k))) ->
  NonNegative (store w) ->
  NonNegative (store (snd (WalletService.attemptLoop remaining attempt itf dto w))).
Proof.
  intros Hitf. revert attempt w.
  induction remaining as [|n IH]; intros attempt w Hs; [done|].
  rewrite attemptLoop_step.
  pose proof (executeTransaction_NonNegative (itf attempt) dto w
                (proj1 (Hitf attempt)) (proj2 (Hitf attempt)) Hs) as Hx.
  destruct (WalletService.executeTransaction (itf attempt) dto w) as [[e|r] w'];
    [|done].
  destruct (isOptimisticLockVersionMismatch e && _); [|done].
  apply IH. done.
Qed.

Lemma createTransaction_NonNegative itf dto (w : World) :
  (forall k, preserves NonNegative (beforeLoad (itf k))
             /\ preserves NonNegative (beforeCommit (itf k))) ->
  NonNegative (store w) ->
  NonNegative (store (snd (WalletService.createTransaction itf dto w))).
Proof.
  intros Hitf Hs.
  destruct (findTransaction (store w) (CreateTransactionDto.transactionId dto))
    as [tx|] eqn:Hf.
  - by rewrite (createTransaction_hit _ _ _ tx).
  - rewrite createTransaction_miss by done. by apply attemptLoop_NonNegative.
Qed.

(** What a concurrent caller of the same service commits keeps balances
    non-negative, so it is admissible interference. *)
Lemma otherCaller_NonNegative dto : preserves NonNegative (otherCaller dto).
Proof.
  intros s Hs. unfold otherCaller.
  apply createTransaction_NonNegative; [|done].
  intros _. split; intros ? ?; done.
Qed.

(** The interference of [race] and of [overlap] is of that kind. *)
Lemma race_admissible dto : admissible (ReqCreateTransaction race dto).
Proof.
  intros k. split; [intros s Hs; exact Hs | apply otherCaller_NonNegative].
Qed.

Lemma overlap_admissible dto : admissible (ReqCreateTransaction overlap dto).
Proof.
  intros k. split; [intros s Hs; exact Hs | apply otherCaller_NonNegative].
Qed.



(* ===================================================================== *)
(** ** Balance consistency *)

(** The check reads and never writes; an unknown wallet is reported. *)
Lemma validateBalanceConsistency_read_only walletId (w : World) :
  snd (WalletService.validateBalanceConsistency walletId w) = w
  /\ (wallets (store w) !! walletId = None -> isUuid walletId = true ->
      fst (WalletService.validateBalanceConsistency walletId w)
      = inl (WalletNotFoundException walletId)).
Proof.
  unfold WalletService.validateBalanceConsistency, bind,
    walletRepository_findOne, transactionRepository_sumConvertedAmount,
    throw, ret. simpl.
  destruct (findWallet (store w) walletId) as [e|[wl|]] eqn:E; split; try done.
  - intros H1 H2. apply findWallet_inl in E as (_ & E & _). congruence.
  - intros H1 H2. apply findWallet_Some in E. congruence.
Qed.

(** C3.  On the wallet of the test the three transactions are applied (the
    ledger has three rows, the balance is 1400) and the ledger sums to 400:
    the initial balance is in the wallet row and in no ledger row, so the
    check answers [false] where the test expects [true]. *)
Theorem consistency_check_ignores_initial_balance :
  length (transactions (store consistencyWorld)) = 3%nat
  /\ match wallets (store consistencyWorld) !! wallet1000 with
     | Some wl => Wallet.balance wl == 1400
     | None => False
     end
  /\ sumQ (Transaction.convertedAmount
             <$> transactionsOf (store consistencyWorld) wallet1000) == 400
  /\ WalletService.validateBalanceConsistency wallet1000 consistencyWorld
     = (inr false, consistencyWorld).
Proof. vm_compute. repeat split; reflexivity. Qed.

(* ===================================================================== *)
(** ** Currency conversion *)

Lemma rateOf_pos code (r : Q) : CurrencyService.rateOf code = Some r -> 0 < r.
Proof.
  unfold CurrencyService.rateOf, CurrencyService.exchangeRates. simpl.
  repeat (case_bool_decide; [intros [= <-]; reflexivity|]).
  discriminate.
Qed.

Lemma supported_rate code (r : Q) :
  CurrencyService.rateOf code = Some r ->
  CurrencyService.unsupported code = false /\ CurrencyService.rate code = r.
Proof.
  intros H. unfold CurrencyService.unsupported, CurrencyService.rate, truthy.
  rewrite H. simpl. split; [|done].
  apply rateOf_pos in H.
  destruct (Qeq_bool r 0) eqn:E; [|done].
  apply Qeq_bool_iff in E. rewrite E in H. by apply Qlt_irrefl in H.
Qed.

(** [Math.round(x * 100) / 100] is the multiple of 0.01 nearest to [x],
    the upper one on a tie. *)
Lemma round2_half_up (x : Q) :
  let q := inject_Z (Math_round (x * 100)) / 100 in
  q - (1 # 200) <= x /\ x < q + (1 # 200).
Proof.
  intros q. subst q. unfold Math_round.
  pose proof (Qfloor_le (x * 100 + (1 # 2))) as Hlo.
  pose proof (Qlt_floor (x * 100 + (1 # 2))) as Hhi.
  rewrite inject_Z_plus in Hhi.
  set (K := inject_Z (Qfloor (x * 100 + (1 # 2)))) in *.
  unfold Qdiv. change (/ 100) with (1 # 100).
  change (inject_Z 1) with 1 in Hhi.
  split; lra.
Qed.

(** A number of whole hundredths below the limit fits its column. *)
Lemma fitsDecimal2_hundredths (x : Q) (k : Z) :
  x == inject_Z k / 100 -> Qabs x < inject_Z (10 ^ 18) -> fitsDecimal2 x = true.
Proof.
  intros Hk Hx. unfold fitsDecimal2. apply Qltb_lt.
  by rewrite (toDecimal2_hundredths x k).
Qed.

(** The rates of the binary64 table are truthy. *)
Lemma rateOf64_supported code (r : Binary64.double) :
  Binary64.rateOf code = Some r ->
  Binary64.unsupported code = false /\ Binary64.rate code = r.
Proof.
  intros H. unfold Binary64.unsupported, Binary64.rate. rewrite H.
  split; [|done]. revert H.
  unfold Binary64.rateOf, Binary64.exchangeRates.
  cbn [List.find fst].
  repeat (case_bool_decide; [intros [= <-]; vm_compute; reflexivity|]).
  discriminate.
Qed.

(** [Math.round] on a double: the integer whose half-open unit interval
    holds the number the double stands for. *)
Lemma Math_round64_half_up (x : Binary64.double) (q : Q) :
  Binary64.exact x = Some q ->
  exists (negative : bool) (k : Z),
    Binary64.Math_round x = Binary64.ofInteger negative k
    /\ inject_Z k - (1 # 2) <= q /\ q < inject_Z k + (1 # 2).
Proof.
  destruct x as [s|s| |s m e]; simpl; try discriminate.
  - intros [= <-]. exists s, 0%Z. split; [reflexivity|].
    change (inject_Z 0) with 0. split; lra.
  - intros [= <-].
    set (q := inject_Z (cond_Zopp s (Z.pos m)) * 2 ^ e).
    exists s, (Qfloor (q + (1 # 2))). split; [reflexivity|].
    pose proof (Qfloor_le (q + (1 # 2))) as Hlo.
    pose proof (Qlt_floor (q + (1 # 2))) as Hhi.
    rewrite inject_Z_plus in Hhi. change (inject_Z 1) with 1 in Hhi.
    split; lra.
Qed.

(** A deposit of 10 USD, spelled out. *)
Lemma deposit_10_USD (w : World) (walletId transactionId : string) wallet (k : Z) :
  findTransaction (store w) transactionId = None ->
  wallets (store w) !! walletId = Some wallet ->
  Wallet.id wallet = walletId ->
  (String.length transactionId <= 255)%nat ->
  Wallet.balance wallet == inject_Z k / 100 ->
  (0 <= k <= 10 ^ 14)%Z ->
  exists r w' wallet',
    WalletService.createTransaction (fun _ => quiet)
      (deposit transactionId walletId 10 "USD") w = (inr r, w')
    /\ TransactionResponseDto.convertedAmount r == 490
    /\ wallets (store w') !! walletId = Some wallet'
    /\ Wallet.balance wallet' == Wallet.balance wallet + 490.
Proof.
  intros Hmiss Hw Hid Hlen Hk Hrange.
  assert (Hsum : Wallet.balance wallet + impactOf (deposit transactionId walletId 10 "USD") (49000 # 100)
                 == inject_Z (k + 49000) / 100).
  { rewrite Hk, inject_Z_plus. unfold impactOf. simpl. field. }
  assert (Hk0 : 0 <= inject_Z k /\ inject_Z k <= inject_Z (10 ^ 14)).
  { split; [change 0 with (inject_Z 0)|]; rewrite <- Zle_Qle; lia. }
  rewrite createTransaction_miss by done.
  unfold WalletService.MAX_RETRIES. rewrite attemptLoop_step.
  rewrite (executeTransaction_commits quiet _ w wallet (49000 # 100));
    simpl; try done.
  - eexists _, _, _. split; [reflexivity|]. simpl.
    split; [reflexivity|]. rewrite <- Hid, lookup_insert_eq.
    split; [reflexivity|]. simpl.
    rewrite (toDecimal2_hundredths _ (k + 49000)) by exact Hsum.
    unfold impactOf. simpl. lra.
  - rewrite Hsum, inject_Z_plus. destruct Hk0 as [Hk0 _].
    unfold Qdiv. change (/ 100) with (1 # 100). change (inject_Z 49000) with 49000. lra.
  - split.
    + unfold transactionColumnsError, draftOf, em_createTransaction. simpl.
      apply Nat.ltb_ge in Hlen. rewrite Hlen.
      replace (fitsDecimal2 10) with true by (vm_compute; reflexivity).
      replace (fitsDecimal2 (impactOf (deposit transactionId walletId 10 "USD") (49000 # 100)))
        with true by (vm_compute; reflexivity).
      reflexivity.
    + apply (fitsDecimal2_hundredths _ (k + 49000)); [exact Hsum|].
      rewrite Hsum, inject_Z_plus. destruct Hk0 as [Hk0 Hk1].
      change (inject_Z (10 ^ 14)) with 100000000000000 in Hk1.
      change (inject_Z (10 ^ 18)) with 1000000000000000000.
      change (inject_Z 49000) with 49000.
      rewrite Qabs_pos; unfold Qdiv; change (/ 100) with (1 # 100); lra.
Qed.

(** C8 (amended).  For a supported source and target currency [convert]
    returns [Math.round(p) / 100], where [p] is the double computed for
    [amount * rate[from] / rate[to] * 100]: when [p] is finite,
    [Math.round(p)] is the integer nearest to the number [p] stands for,
    ties rounded up, found by a single rounding, and the result is the
    double obtained by dividing it by 100.  The rates are the six of the
    fixed table.  10 USD convert to exactly 490, and a deposit of 10 USD
    into a wallet holding a whole number of hundredths (up to 10^12) adds
    exactly 490 to its balance and is recorded with that amount. *)
Theorem convert_rounds_half_up
  (amount : Binary64.double) (fromCurrency toCurrency : string)
  (rf rt : Binary64.double) :
  Binary64.rateOf (toUpperCase fromCurrency) = Some rf ->
  Binary64.rateOf (toUpperCase toCurrency) = Some rt ->
  let p :=
    Binary64.mul (Binary64.div (Binary64.mul amount rf) rt) (Binary64.ofZ 100) in
  Binary64.convert amount fromCurrency toCurrency
  = inr (Binary64.div (Binary64.Math_round p) (Binary64.ofZ 100))
  /\ (forall q : Q,
        Binary64.exact p = Some q ->
        exists (negative : bool) (k : Z),
          Binary64.Math_round p = Binary64.ofInteger negative k
          /\ inject_Z k - (1 # 2) <= q /\ q < inject_Z k + (1 # 2))
  /\ Binary64.exchangeRates
     = [ ("EGP", Binary64.ofZ 1); ("USD", Binary64.ofZ 49);
         ("EUR", Binary64.ofZ 53); ("GBP", Binary64.ofZ 62);
         ("SAR", Binary64.ofZ 13); ("AED", Binary64.literal 133 10) ]
  /\ Binary64.toEGP (Binary64.ofZ 10) "USD" = inr (Binary64.ofZ 490)
  /\ match Binary64.exact (Binary64.ofZ 10), Binary64.exact (Binary64.ofZ 490) with
     | Some ten, Some q => ten == 10 /\ q == 490
     | _, _ => False
     end
  /\ (forall (w : World) (walletId transactionId : string) wallet (k : Z),
        findTransaction (store w) transactionId = None ->
        wallets (store w) !! walletId = Some wallet ->
        Wallet.id wallet = walletId ->
        (String.length transactionId <= 255)%nat ->
        Wallet.balance wallet == inject_Z k / 100 ->
        (0 <= k <= 10 ^ 14)%Z ->
        exists r w' wallet',
          WalletService.createTransaction (fun _ => quiet)
            (deposit transactionId walletId 10 "USD") w = (inr r, w')
          /\ TransactionResponseDto.convertedAmount r == 490
          /\ wallets (store w') !! walletId = Some wallet'
          /\ Wallet.balance wallet' == Wallet.balance wallet + 490).
Proof.
  intros Hf Ht p.
  split; [|split; [|split; [|split; [|split]]]].
  - apply rateOf64_supported in Hf as [Hf1 Hf2].
    apply rateOf64_supported in Ht as [Ht1 Ht2].
    unfold Binary64.convert. rewrite Hf1, Ht1, Hf2, Ht2. reflexivity.
  - intros q Hq. by apply Math_round64_half_up.
  - reflexivity.
  - vm_compute. reflexivity.
  - vm_compute. split; reflexivity.
  - apply deposit_10_USD.
Qed.

(** C8, as stated, fails: 2.65 AED are 35.245 EGP at the rate of 13.3,
    which half-up rounding takes to 35.25, on the decimal values and on the
    numbers the two doubles stand for alike; [toEGP] returns 35.24, because
    the double computed for the product lies below 3524.5.  And
    [wallet.balance + 490] is not always 490 more than the balance: on a
    balance of 10^17 the sum is the double 10^17 + 496. *)
Lemma convert_half_up_counterexample :
  Binary64.toEGP (Binary64.literal 265 100) "AED" = inr (Binary64.literal 3524 100)
  /\ Binary64.literal 3524 100 <> Binary64.literal 3525 100
  /\ CurrencyService.toEGP (265 # 100) "AED" = inr (3525 # 100)
  /\ match Binary64.exact (Binary64.literal 265 100),
           Binary64.exact (Binary64.literal 133 10) with
     | Some a, Some r =>
         (3525 # 100) - (1 # 200) <= a * r /\ a * r < (3525 # 100) + (1 # 200)
     | _, _ => False
     end
  /\ Binary64.add (Binary64.ofZ (10 ^ 17)) (Binary64.ofZ 490)
     = Binary64.ofZ (10 ^ 17 + 496)
  /\ Binary64.exact (Binary64.ofZ (10 ^ 17 + 496)) = Some (inject_Z (10 ^ 17 + 496)).
Proof.
  split; [vm_compute; reflexivity|].
  split; [vm_compute; discriminate|].
  split; [vm_compute; reflexivity|].
  split; [vm_compute; split; [discriminate | reflexivity]|].
  split; vm_compute; reflexivity.
Qed.

(* ===================================================================== *)
(** ** Wallet creation *)

(** When the columns of a new wallet row can hold it. *)
Lemma walletColumnsError_None (wallet : Wallet.t) :
  walletColumnsError wallet = None
  <-> (String.length (Wallet.currency wallet) <= 3)%nat
      /\ Qabs (toDecimal2 (Wallet.balance wallet)) < inject_Z (10 ^ 18).
Proof.
  unfold walletColumnsError, fitsDecimal2.
  destruct (Qltb _ _) eqn:F; simpl.
  - apply Qltb_lt in F.
    destruct (3 <? String.length (Wallet.currency wallet))%nat eqn:E.
    + apply Nat.ltb_lt in E. split; [discriminate | lia].
    + apply Nat.ltb_ge in E. done.
  - apply Qltb_ge in F. split; [discriminate|].
    intros [_ H]. exfalso. by eapply Qle_not_lt.
Qed.

(** When the columns of a new ledger row can hold it. *)
Lemma transactionColumnsError_None (t : Transaction.t) :
  transactionColumnsError t = None
  <-> (String.length (Transaction.transactionId t) <= 255)%nat
      /\ Qabs (toDecimal2 (Transaction.amount t)) < inject_Z (10 ^ 18)
      /\ (String.length (Transaction.currency t) <= 3)%nat
      /\ Qabs (toDecimal2 (Transaction.convertedAmount t)) < inject_Z (10 ^ 18).
Proof.
  unfold transactionColumnsError, fitsDecimal2.
  destruct (255 <? String.length (Transaction.transactionId t))%nat eqn:E1.
  { apply Nat.ltb_lt in E1. split; [discriminate | lia]. }
  apply Nat.ltb_ge in E1.
  destruct (Qltb (Qabs (toDecimal2 (Transaction.amount t))) (inject_Z (10 ^ 18)))
    eqn:F1; cbn [negb].
  2:{ apply Qltb_ge in F1. split; [discriminate|].
      intros (_ & H & _). exfalso. by eapply Qle_not_lt. }
  apply Qltb_lt in F1.
  destruct (3 <? String.length (Transaction.currency t))%nat eqn:E2.
  { apply Nat.ltb_lt in E2. split; [discriminate | lia]. }
  apply Nat.ltb_ge in E2.
  destruct (Qltb (Qabs (toDecimal2 (Transaction.convertedAmount t)))
              (inject_Z (10 ^ 18))) eqn:F2; cbn [negb].
  - apply Qltb_lt in F2. done.
  - apply Qltb_ge in F2. split; [discriminate|].
    intros (_ & _ & _ & H). exfalso. by eapply Qle_not_lt.
Qed.

(** What [createWallet] returns and stores. *)
Lemma createWallet_inr
  (initialBalance : option Q) (currency : option string) (w w' : World) wallet :
  WalletService.createWallet initialBalance currency w = (inr wallet, w') ->
  w' = mkWorld (mkStore (<[Wallet.id wallet := walletRow wallet]> (wallets (store w)))
                        (transactions (store w)) (clock (store w)))
               (trace w)
  /\ wallets (store w) !! Wallet.id wallet = None
  /\ Wallet.balance (walletRow wallet) = toDecimal2 (default 0 initialBalance)
  /\ Wallet.currency wallet = default "EGP" currency
  /\ Wallet.updatedAt wallet = clock (store w)
  /\ Wallet.version wallet = INITIAL_VERSION
  /\ (String.length (default "EGP" currency) <= 3)%nat
  /\ Qabs (toDecimal2 (default 0 initialBalance)) < inject_Z (10 ^ 18).
Proof.
  unfold WalletService.createWallet, walletRepository_save.
  destruct (walletColumnsError _) eqn:E; [discriminate|].
  intros [= <- <-]. simpl.
  apply walletColumnsError_None in E as [E1 E2].
  split; [done|]. split; [apply not_elem_of_dom, is_fresh|]. done.
Qed.

(** C9 (amended).  [createWallet] validates nothing: whatever the sign of
    the initial balance, and for every currency string, it hands the wallet
    to the store.  If the columns can hold it (a currency of at most three
    characters, a balance below 10^18 once rounded to two decimals) the
    wallet is persisted under an identifier no stored wallet uses, with the
    given currency ('EGP' when omitted), the given balance (0 when omitted)
    rounded to two decimals, and the initial version, the ledger and the
    other wallets being left as they were; if not, the store's error comes
    back and nothing is written. *)
Theorem createWallet_persists_unvalidated
  (initialBalance : option Q) (currency : option string) (w : World) :
  let balance := default 0 initialBalance in
  let code := default "EGP" currency in
  (walletColumnsError (walletRepository_create balance code) = None
   <-> (String.length code <= 3)%nat
       /\ Qabs (toDecimal2 balance) < inject_Z (10 ^ 18))
  /\ (exists n : Z,
        toDecimal2 balance = inject_Z n / 100
        /\ Qabs (toDecimal2 balance - balance) <= 1 # 200)
  /\ match walletColumnsError (walletRepository_create balance code) with
     | Some _ =>
         exists detail,
           WalletService.createWallet initialBalance currency w
           = (inl (QueryFailedError detail), w)
     | None =>
         exists wallet row,
           WalletService.createWallet initialBalance currency w
           = (inr wallet,
              mkWorld (mkStore (<[Wallet.id wallet := row]> (wallets (store w)))
                               (transactions (store w)) (clock (store w)))
                      (trace w))
           /\ wallets (store w) !! Wallet.id wallet = None
           /\ Wallet.id row = Wallet.id wallet
           /\ Wallet.balance row = toDecimal2 balance
           /\ Wallet.currency row = code
           /\ Wallet.version row = INITIAL_VERSION
     end.
Proof.
  intros balance code. split; [apply walletColumnsError_None|].
  split; [apply toDecimal2_near|].
  unfold WalletService.createWallet, walletRepository_save.
  fold balance code.
  destruct (walletColumnsError (walletRepository_create balance code)); [eauto|].
  eexists _, _. split; [reflexivity|]. simpl.
  split; [apply not_elem_of_dom, is_fresh|]. done.
Qed.

(** C9, as stated, fails: a negative initial balance is not rejected, the
    wallet is stored with it. *)
Lemma createWallet_negative_counterexample :
  match WalletService.createWallet (Some (-5)) (Some "EGP") emptyWorld with
  | (inr wallet, w') =>
      match wallets (store w') !! Wallet.id wallet with
      | Some row => Wallet.balance row == -5 /\ Wallet.balance row < 0
      | None => False
      end
  | (inl _, _) => False
  end.
Proof. vm_compute. repeat split; reflexivity. Qed.

(* ===================================================================== *)
(** ** The theorems at work on concrete requests *)

Lemma idempotent_replay_witness :
  exists tx : Transaction.t,
    findTransaction (store (snd firstRun))
      (CreateTransactionDto.transactionId firstDeposit) = Some tx
    /\ Transaction.id tx = TransactionResponseDto.id firstResponse
    /\ TransactionResponseDto.transactionId firstResponse
       = CreateTransactionDto.transactionId firstDeposit
    /\ Transaction.convertedAmount tx
       == TransactionResponseDto.convertedAmount firstResponse
    /\ WalletService.createTransaction quietly mismatchedReplay (snd firstRun)
       = (inr {| TransactionResponseDto.id := TransactionResponseDto.id firstResponse;
                 TransactionResponseDto.transactionId :=
                   CreateTransactionDto.transactionId firstDeposit;
                 TransactionResponseDto.walletId := Transaction.walletId tx;
                 TransactionResponseDto.type := Transaction.type tx;
                 TransactionResponseDto.amount := Transaction.amount tx;
                 TransactionResponseDto.currency := Transaction.currency tx;
                 TransactionResponseDto.convertedAmount := Transaction.convertedAmount tx;
                 TransactionResponseDto.metadata := Transaction.metadata tx;
                 TransactionResponseDto.createdAt := Transaction.createdAt tx |},
          snd firstRun)
    /\ (forall tx0,
          findTransaction (store world1000)
            (CreateTransactionDto.transactionId firstDeposit) = Some tx0 ->
          tx = tx0 /\ snd firstRun = world1000)
    /\ (findTransaction (store world1000)
          (CreateTransactionDto.transactionId firstDeposit) = None ->
        TransactionResponseDto.amount firstResponse
        = CreateTransactionDto.amount firstDeposit
        /\ Transaction.amount tx = toDecimal2 (CreateTransactionDto.amount firstDeposit)
        /\ exists s1 s2 wallet row,
             wallets s1 !! CreateTransactionDto.walletId firstDeposit = Some wallet
             /\ findTransaction s2 (CreateTransactionDto.transactionId firstDeposit)
                = None
             /\ 0 <= Wallet.balance wallet
                     + TransactionResponseDto.convertedAmount firstResponse
             /\ transactions (store (snd firstRun)) = (transactions s2 ++ [tx])%list
             /\ wallets (store (snd firstRun)) !! Wallet.id wallet = Some row
             /\ (forall j : Z,
                   Wallet.balance wallet == inject_Z j / 100 ->
                   (0 <= j <= 10 ^ 14)%Z ->
                   Qabs (TransactionResponseDto.convertedAmount firstResponse)
                   <= inject_Z (10 ^ 12) ->
                   Wallet.balance row
                   == Wallet.balance wallet
                      + TransactionResponseDto.convertedAmount firstResponse)
             /\ (forall k, k <> Wallet.id wallet ->
                   wallets (store (snd firstRun)) !! k = wallets s2 !! k)
             /\ ((forall k, quietly k = quiet) ->
                 s1 = store world1000 /\ s2 = store world1000)).
Proof.
  apply (idempotent_replay quietly quietly firstDeposit mismatchedReplay
           world1000 (snd firstRun) firstResponse).
  - reflexivity.
  - vm_compute. reflexivity.
Defined.

Lemma idempotency_hit_ignores_payload_witness :
  WalletService.createTransaction quietly mismatchedReplay (snd firstRun)
  = (inr (WalletService.mapToResponseDto firstEntry), snd firstRun).
Proof.
  apply (idempotency_hit_ignores_payload quietly (snd firstRun) firstEntry
           "idempotent-test-1" "no-such-wallet" WITHDRAWAL 999 (Some "GBP")
           (Some [("note", "other payload")])).
  vm_compute. reflexivity.
Defined.


Lemma insufficient_funds_fails_fast_witness :
  WalletService.createTransaction quietly overdraw world1000
  = (inl (InsufficientFunds
            {| statusCode := 400;
               message := "Insufficient funds";
               error := "INSUFFICIENT_FUNDS";
               details :=
                 Some {| currentBalance := Wallet.balance testWallet;
                         requestedAmount := Qabs (impactOf overdraw (200000 # 100));
                         shortfall := Qabs (impactOf overdraw (200000 # 100))
                                      - Wallet.balance testWallet |} |}),
     mkWorld (beforeLoad (quietly 1%nat) (store world1000))
             (trace world1000 ++ [EvTransaction]))
  /\ 0 <= Qabs (impactOf overdraw (200000 # 100))
  /\ (Qabs (impactOf overdraw (200000 # 100)) == impactOf overdraw (200000 # 100)
      \/ Qabs (impactOf overdraw (200000 # 100)) == - impactOf overdraw (200000 # 100))
  /\ (CreateTransactionDto.type overdraw = WITHDRAWAL -> 0 <= 200000 # 100 ->
      Qabs (impactOf overdraw (200000 # 100)) == 200000 # 100)
  /\ 0 < Qabs (impactOf overdraw (200000 # 100)) - Wallet.balance testWallet
  /\ (quietly 1%nat = quiet ->
      beforeLoad (quietly 1%nat) (store world1000) = store world1000).
Proof.
  apply (insufficient_funds_fails_fast quietly overdraw world1000 testWallet
           (200000 # 100)).
  - vm_compute. reflexivity.
  - vm_compute. reflexivity.
  - vm_compute. reflexivity.
  - vm_compute. reflexivity.
Defined.

Lemma retry_schedule_witness :
  let dto := deposit "mine" wallet1000 10 "EGP" in
  let a1 := WalletService.executeTransaction (contention 1%nat) dto world1000 in
  let a2 := WalletService.executeTransaction (contention 2%nat) dto (slept 200 (snd a1)) in
  let a3 := WalletService.executeTransaction (contention 3%nat) dto (slept 400 (snd a2)) in
  contendedRun = (if isConflict a1 then if isConflict a2 then a3 else a2 else a1)
  /\ trace (snd contendedRun)
     = (trace world1000 ++
        (if isConflict a1
         then if isConflict a2
              then [EvTransaction; EvSleep 200; EvTransaction; EvSleep 400; EvTransaction]
              else [EvTransaction; EvSleep 200; EvTransaction]
         else [EvTransaction]))%list
  /\ delays (trace (snd contendedRun))
     = (delays (trace world1000) ++
        (if isConflict a1 then if isConflict a2 then [200; 400] else [200] else []))%Z%list
  /\ (attempts (trace (snd contendedRun)) <= attempts (trace world1000) + 3)%nat.
Proof.
  apply (retry_schedule contention (deposit "mine" wallet1000 10 "EGP") world1000).
  vm_compute. reflexivity.
Defined.

Lemma convert_rounds_half_up_witness :
  let p :=
    Binary64.mul
      (Binary64.div (Binary64.mul (Binary64.literal 265 100) (Binary64.literal 133 10))
                    (Binary64.ofZ 1))
      (Binary64.ofZ 100) in
  Binary64.convert (Binary64.literal 265 100) "aed" "EGP"
  = inr (Binary64.div (Binary64.Math_round p) (Binary64.ofZ 100))
  /\ (forall q : Q,
        Binary64.exact p = Some q ->
        exists (negative : bool) (k : Z),
          Binary64.Math_round p = Binary64.ofInteger negative k
          /\ inject_Z k - (1 # 2) <= q /\ q < inject_Z k + (1 # 2))
  /\ Binary64.exchangeRates
     = [ ("EGP", Binary64.ofZ 1); ("USD", Binary64.ofZ 49);
         ("EUR", Binary64.ofZ 53); ("GBP", Binary64.ofZ 62);
         ("SAR", Binary64.ofZ 13); ("AED", Binary64.literal 133 10) ]
  /\ Binary64.toEGP (Binary64.ofZ 10) "USD" = inr (Binary64.ofZ 490)
  /\ match Binary64.exact (Binary64.ofZ 10), Binary64.exact (Binary64.ofZ 490) with
     | Some ten, Some q => ten == 10 /\ q == 490
     | _, _ => False
     end
  /\ (forall (w : World) (walletId transactionId : string) wallet (k : Z),
        findTransaction (store w) transactionId = None ->
        wallets (store w) !! walletId = Some wallet ->
        Wallet.id wallet = walletId ->
        (String.length transactionId <= 255)%nat ->
        Wallet.balance wallet == inject_Z k / 100 ->
        (0 <= k <= 10 ^ 14)%Z ->
        exists r w' wallet',
          WalletService.createTransaction (fun _ => quiet)
            (deposit transactionId walletId 10 "USD") w = (inr r, w')
          /\ TransactionResponseDto.convertedAmount r == 490
          /\ wallets (store w') !! walletId = Some wallet'
          /\ Wallet.balance wallet' == Wallet.balance wallet + 490).
Proof.
  apply (convert_rounds_half_up (Binary64.literal 265 100) "aed" "EGP"
           (Binary64.literal 133 10) (Binary64.ofZ 1)).
  - vm_compute. reflexivity.
  - vm_compute. reflexivity.
Defined.

(* ===================================================================== *)
(** ** More on CurrencyService *)

Lemma upper_ascii_idempotent (c : ascii) :
  upper_ascii (upper_ascii c) = upper_ascii c.
Proof. destruct c as [[] [] [] [] [] [] [] []]; reflexivity. Qed.

Lemma toUpperCase_idempotent (s : string) :
  toUpperCase (toUpperCase s) = toUpperCase s.
Proof.
  induction s as [|c s IH]; [done|].
  simpl. by rewrite upper_ascii_idempotent, IH.
Qed.

(** The rates of the table, one by one. *)
Lemma rateOf_cases code (r : Q) :
  CurrencyService.rateOf code = Some r ->
  (code = "EGP" /\ r = 1) \/ (code = "USD" /\ r = 49)
  \/ (code = "EUR" /\ r = 53) \/ (code = "GBP" /\ r = 62)
  \/ (code = "SAR" /\ r = 13) \/ (code = "AED" /\ r = 133 # 10).
Proof.
  unfold CurrencyService.rateOf, CurrencyService.exchangeRates. simpl.
  repeat (case_bool_decide; [intros [= <-]; subst; tauto|]).
  discriminate.
Qed.

Lemma unsupported_false code :
  CurrencyService.unsupported code = false ->
  exists r, CurrencyService.rateOf code = Some r.
Proof.
  unfold CurrencyService.unsupported.
  destruct (CurrencyService.rateOf code) as [r|]; [eauto | discriminate].
Qed.

Lemma unsupported_None code :
  CurrencyService.rateOf code = None -> CurrencyService.unsupported code = true.
Proof. unfold CurrencyService.unsupported. by intros ->. Qed.

(** What [convert] computes once both codes are known. *)
Lemma convert_supported (amount : Q) fromCurrency toCurrency (rf rt : Q) :
  CurrencyService.rateOf (toUpperCase fromCurrency) = Some rf ->
  CurrencyService.rateOf (toUpperCase toCurrency) = Some rt ->
  CurrencyService.convert amount fromCurrency toCurrency
  = inr (inject_Z (Math_round (amount * rf / rt * 100)) / 100).
Proof.
  intros Hf Ht.
  apply supported_rate in Hf as [Hf1 Hf2]. apply supported_rate in Ht as [Ht1 Ht2].
  unfold CurrencyService.convert. by rewrite Hf1, Ht1, Hf2, Ht2.
Qed.

(** X1.  An unknown code is reported in upper case, the source code before
    the target code; nothing is converted. *)
Theorem convert_unsupported (amount : Q) (fromCurrency toCurrency : string) :
  (CurrencyService.rateOf (toUpperCase fromCurrency) = None ->
   CurrencyService.convert amount fromCurrency toCurrency
   = inl (Error ("Unsupported currency: " ++ toUpperCase fromCurrency)))
  /\ (forall rf,
        CurrencyService.rateOf (toUpperCase fromCurrency) = Some rf ->
        CurrencyService.rateOf (toUpperCase toCurrency) = None ->
        CurrencyService.convert amount fromCurrency toCurrency
        = inl (Error ("Unsupported currency: " ++ toUpperCase toCurrency))).
Proof.
  split.
  - intros H. unfold CurrencyService.convert. by rewrite (unsupported_None _ H).
  - intros rf Hf Ht. unfold CurrencyService.convert.
    apply supported_rate in Hf as [-> _]. by rewrite (unsupported_None _ Ht).
Qed.

(** X2.  Currency codes are read without regard to case: converting with
    the codes as given and with the codes in upper case is the same call. *)
Theorem convert_case_insensitive (amount : Q) (fromCurrency toCurrency : string) :
  CurrencyService.convert amount fromCurrency toCurrency
  = CurrencyService.convert amount (toUpperCase fromCurrency) (toUpperCase toCurrency).
Proof.
  unfold CurrencyService.convert. by rewrite !toUpperCase_idempotent.
Qed.

(** X4.  Conversion keeps the order of amounts and the sign: a larger
    amount never converts to less, nothing converts to nothing, and a
    non-negative amount never converts to a negative one. *)
Theorem convert_monotone
  (a1 a2 : Q) (fromCurrency toCurrency : string) (rf rt : Q) :
  CurrencyService.rateOf (toUpperCase fromCurrency) = Some rf ->
  CurrencyService.rateOf (toUpperCase toCurrency) = Some rt ->
  a1 <= a2 ->
  exists q0 q1 q2,
    CurrencyService.convert 0 fromCurrency toCurrency = inr q0
    /\ CurrencyService.convert a1 fromCurrency toCurrency = inr q1
    /\ CurrencyService.convert a2 fromCurrency toCurrency = inr q2
    /\ q0 == 0 /\ q1 <= q2 /\ (0 <= a1 -> 0 <= q1).
Proof.
  intros Hf Ht Hle.
  pose proof (rateOf_pos _ _ Hf) as Hrf. pose proof (rateOf_pos _ _ Ht) as Hrt.
  assert (Hmono : forall x y, x <= y ->
            inject_Z (Math_round (x * rf / rt * 100)) / 100
            <= inject_Z (Math_round (y * rf / rt * 100)) / 100).
  { intros x y Hxy.
    assert (Hc : 0 < rf / rt) by (apply Qlt_shift_div_l; lra).
    assert (Hm : x * rf / rt * 100 <= y * rf / rt * 100).
    { assert (E : forall z, z * rf / rt * 100 == z * (rf / rt) * 100)
        by (intros z; field; intros E; rewrite E in Hrt; by apply Qlt_irrefl in Hrt).
      rewrite !E. apply Qmult_le_compat_r; [|lra].
      apply Qmult_le_compat_r; [done | lra]. }
    apply Math_round_le in Hm. rewrite Zle_Qle in Hm.
    set (A := inject_Z (Math_round (x * rf / rt * 100))) in *.
    set (B := inject_Z (Math_round (y * rf / rt * 100))) in *.
    unfold Qdiv. change (/ 100) with (1 # 100). lra. }
  assert (Hzero : inject_Z (Math_round (0 * rf / rt * 100)) / 100 == 0).
  { assert (E : 0 * rf / rt * 100 == 0)
      by (field; intros E; rewrite E in Hrt; by apply Qlt_irrefl in Hrt).
    rewrite (Math_round_unique _ 0); [reflexivity| |];
      rewrite E; change (inject_Z 0) with 0; lra. }
  eexists _, _, _.
  rewrite !(convert_supported _ _ _ rf rt) by done.
  split; [reflexivity|]. split; [reflexivity|]. split; [reflexivity|].
  split; [done|]. split; [by apply Hmono|].
  intros H0. rewrite <- Hzero. by apply Hmono.
Qed.

(** X6.  [getSupportedCurrencies] lists the six codes in the order of the
    table, and a conversion succeeds exactly when both codes, in upper case,
    are on that list. *)
Theorem supported_currencies_are_the_convertible_ones
  (amount : Q) (fromCurrency toCurrency : string) :
  CurrencyService.getSupportedCurrencies
  = ["EGP"; "USD"; "EUR"; "GBP"; "SAR"; "AED"]
  /\ ((exists q, CurrencyService.convert amount fromCurrency toCurrency = inr q)
      <-> toUpperCase fromCurrency ∈ CurrencyService.getSupportedCurrencies
          /\ toUpperCase toCurrency ∈ CurrencyService.getSupportedCurrencies).
Proof.
  split; [reflexivity|].
  assert (Hlist : forall code,
            code ∈ CurrencyService.getSupportedCurrencies
            <-> exists r, CurrencyService.rateOf code = Some r).
  { intros code. split.
    - change CurrencyService.getSupportedCurrencies
        with ["EGP"; "USD"; "EUR"; "GBP"; "SAR"; "AED"].
      rewrite !elem_of_cons, elem_of_nil.
      intros [->|[->|[->|[->|[->|[->|[]]]]]]]; eexists; reflexivity.
    - intros [r Hr]. apply rateOf_cases in Hr.
      change CurrencyService.getSupportedCurrencies
        with ["EGP"; "USD"; "EUR"; "GBP"; "SAR"; "AED"].
      rewrite !elem_of_cons.
      destruct Hr as [[-> _]|[[-> _]|[[-> _]|[[-> _]|[[-> _]|[-> _]]]]]]; tauto. }
  rewrite !Hlist. split.
  - intros [q Hq]. unfold CurrencyService.convert in Hq.
    destruct (CurrencyService.unsupported (toUpperCase fromCurrency)) eqn:E1;
      [discriminate|].
    destruct (CurrencyService.unsupported (toUpperCase toCurrency)) eqn:E2;
      [discriminate|].
    split; by apply unsupported_false.
  - intros [[rf Hf] [rt Ht]]. eexists. by apply convert_supported.
Qed.


(* ===================================================================== *)
(** ** More on createTransaction *)

(** When the lookup misses, the outcome of the call is the outcome of one
    of its attempts, started from a store that satisfies whatever every
    attempt keeps. *)
Lemma createTransaction_some_attempt (P : Store -> Prop) itf dto (w : World) :
  findTransaction (store w) (CreateTransactionDto.transactionId dto) = None ->
  (forall k (v : World),
     P (store v) ->
     P (store (snd (WalletService.executeTransaction (itf k) dto v)))) ->
  P (store w) ->
  exists k (v : World),
    P (store v)
    /\ WalletService.createTransaction itf dto w
       = WalletService.executeTransaction (itf k) dto v.
Proof.
  intros Hmiss Hkeep Hw.
  rewrite createTransaction_three_attempts by done.
  pose proof (Hkeep 1%nat w Hw) as H1.
  pose proof (Hkeep 2%nat
                (slept 200 (snd (WalletService.executeTransaction (itf 1%nat) dto w)))
                H1) as H2.
  destruct (isConflict _); [destruct (isConflict _)|].
  - by exists 3%nat,
      (slept 400
         (snd (WalletService.executeTransaction (itf 2%nat) dto
                 (slept 200
                    (snd (WalletService.executeTransaction (itf 1%nat) dto w)))))).
  - by exists 2%nat,
      (slept 200 (snd (WalletService.executeTransaction (itf 1%nat) dto w))).
  - by exists 1%nat, w.
Qed.


(** X8.  A request in a currency the rate table does not know fails, once
    the wallet is found, with the converter's error for the code in upper
    case: no retry, no sleep, nothing written. *)
Theorem createTransaction_unsupported_currency itf dto (w : World) wallet :
  let s1 := beforeLoad (itf 1%nat) (store w) in
  let code := toUpperCase (orDefault (CreateTransactionDto.currency dto) "EGP") in
  findTransaction (store w) (CreateTransactionDto.transactionId dto) = None ->
  wallets s1 !! CreateTransactionDto.walletId dto = Some wallet ->
  CurrencyService.rateOf code = None ->
  WalletService.createTransaction itf dto w
  = (inl (Error ("Unsupported currency: " ++ code)),
     mkWorld s1 (trace w ++ [EvTransaction])).
Proof.
  intros s1 code Hmiss Hw Hc. subst s1 code.
  rewrite createTransaction_miss by done.
  unfold WalletService.MAX_RETRIES. rewrite attemptLoop_step.
  exec_unfold. apply findWallet_Some in Hw. rewrite Hw.
  unfold CurrencyService.toEGP, CurrencyService.convert.
  by rewrite (unsupported_None _ Hc).
Qed.

Lemma attemptLoop_same_attempts remaining attempt itf dto1 dto2 :
  (forall i (v : World),
     WalletService.executeTransaction i dto1 v
     = WalletService.executeTransaction i dto2 v) ->
  forall w : World,
    WalletService.attemptLoop remaining attempt itf dto1 w
    = WalletService.attemptLoop remaining attempt itf dto2 w.
Proof.
  intros Hx. revert attempt.
  induction remaining as [|n IH]; intros attempt w; [done|].
  rewrite !attemptLoop_step, Hx.
  destruct (WalletService.executeTransaction (itf attempt) dto2 w) as [[e|r] w'];
    [|done].
  destruct (isOptimisticLockVersionMismatch e && _); [apply IH | done].
Qed.

(** X9.  A request without a currency, or with the empty string for one, is
    the same request as one in 'EGP': same outcome, same store, same
    trace. *)
Theorem createTransaction_currency_defaults_to_EGP
  itf (w : World) (transactionId walletId : string) (type : TransactionType)
  (amount : Q) (metadata : option Metadata) :
  let request currency :=
    WalletService.createTransaction itf
      (CreateTransactionDto.mk transactionId walletId type amount currency metadata)
      w in
  request None = request (Some "EGP") /\ request (Some "") = request (Some "EGP").
Proof.
  intros request. subst request. cbv beta.
  unfold WalletService.createTransaction, bind, transactionRepository_findOne.
  simpl.
  destruct (findTransaction (store w) transactionId); [done|].
  split; apply attemptLoop_same_attempts; reflexivity.
Qed.

Lemma convert_nonneg (a : Q) fromCurrency toCurrency (q : Q) :
  CurrencyService.convert a fromCurrency toCurrency = inr q -> 0 <= a -> 0 <= q.
Proof.
  intros Hq Ha. unfold CurrencyService.convert in Hq.
  destruct (CurrencyService.unsupported (toUpperCase fromCurrency)) eqn:E1;
    [discriminate|].
  destruct (CurrencyService.unsupported (toUpperCase toCurrency)) eqn:E2;
    [discriminate|].
  apply unsupported_false in E1 as [rf Hf]. apply unsupported_false in E2 as [rt Ht].
  pose proof (rateOf_pos _ _ Hf) as Hrf. pose proof (rateOf_pos _ _ Ht) as Hrt.
  apply supported_rate in Hf as [_ Hf]. apply supported_rate in Ht as [_ Ht].
  rewrite Hf, Ht in Hq. injection Hq as <-.
  assert (Hx : 0 <= a * rf / rt * 100).
  { apply Qmult_le_0_compat; [|lra].
    apply Qle_shift_div_l; [done|]. rewrite Qmult_0_l.
    apply Qmult_le_0_compat; lra. }
  apply Math_round_le in Hx. change (Math_round 0) with 0%Z in Hx.
  rewrite Zle_Qle in Hx.
  set (A := inject_Z (Math_round (a * rf / rt * 100))) in *.
  change (inject_Z 0) with 0 in Hx.
  unfold Qdiv. change (/ 100) with (1 # 100). lra.
Qed.

(** The errors of one attempt, by kind: an unknown wallet, an unsupported
    currency, insufficient funds, or an error of the store. *)
Lemma executeTransaction_errors itf dto (w w' : World) e :
  WalletService.executeTransaction itf dto w = (inl e, w') ->
  e = WalletNotFoundException (CreateTransactionDto.walletId dto)
  \/ (exists code, e = Error ("Unsupported currency: " ++ code))
  \/ (exists wallet c,
        wallets (beforeLoad itf (store w)) !! CreateTransactionDto.walletId dto
        = Some wallet
        /\ CurrencyService.toEGP (CreateTransactionDto.amount dto)
             (orDefault (CreateTransactionDto.currency dto) "EGP") = inr c
        /\ Wallet.balance wallet + impactOf dto c < 0
        /\ e = InsufficientFundsException (Wallet.balance wallet)
                 (Math_abs (impactOf dto c)))
  \/ (exists detail, e = QueryFailedError detail)
  \/ (exists f, saveFault itf = Some f /\ e = raised f).
Proof.
  exec_unfold. intros H.
  destruct (findWallet (beforeLoad itf (store w)) (CreateTransactionDto.walletId dto))
    as [e0|[wallet|]] eqn:Hw.
  - apply findWallet_inl in Hw as (_ & _ & ->). injection H as <- _. eauto 6.
  - destruct (CurrencyService.toEGP _ _) as [e'|c] eqn:Hc.
    + injection H as <- _. right. left.
      unfold CurrencyService.toEGP, CurrencyService.convert in Hc.
      destruct (CurrencyService.unsupported _); [injection Hc as <-; eauto|].
      destruct (CurrencyService.unsupported _); [injection Hc as <-; eauto|].
      discriminate.
    + fold (impactOf dto c) in H. fold (draftOf dto c) in H.
      destruct (Qltb _ 0) eqn:Hneg.
      * injection H as <- _. apply Qltb_lt in Hneg. apply findWallet_Some in Hw.
        right. right. left. by exists wallet, c.
      * simpl in H.
        destruct (transactionColumnsError (draftOf dto c));
          [injection H as <- _; eauto 7|].
        destruct (findTransaction _ _); [injection H as <- _; eauto 7|].
        simpl in H.
        destruct (saveFault itf) as [f|]; [injection H as <- _; eauto 8|].
        destruct (fitsDecimal2 _); [discriminate|].
        injection H as <- _. eauto 7.
  - injection H as <- _. by left.
Qed.

(** An attempt that ends in [InsufficientFunds], read backwards. *)
Lemma executeTransaction_insufficient itf dto (w w' : World) r :
  WalletService.executeTransaction itf dto w = (inl (InsufficientFunds r), w') ->
  exists wallet c,
    wallets (beforeLoad itf (store w)) !! CreateTransactionDto.walletId dto
    = Some wallet
    /\ CurrencyService.toEGP (CreateTransactionDto.amount dto)
         (orDefault (CreateTransactionDto.currency dto) "EGP") = inr c
    /\ Wallet.balance wallet + impactOf dto c < 0
    /\ InsufficientFunds r
       = InsufficientFundsException (Wallet.balance wallet)
           (Math_abs (impactOf dto c)).
Proof.
  intros H. apply executeTransaction_errors in H
    as [H|[[code H]|[(wallet & c & Hw & Hc & Hneg & H)|[[d H]|(f & _ & H)]]]];
    try discriminate.
  - by exists wallet, c.
  - destruct f; discriminate.
Qed.

(** X10.  Whenever a call ends in [InsufficientFunds], at whatever attempt
    and under whatever interference, the body it carries is coherent: the
    requested amount is not negative and exceeds the balance reported, and
    the shortfall is their difference, hence strictly positive. *)
Theorem insufficient_funds_reports_positive_shortfall
  itf dto (w w' : World) (r : Response) :
  WalletService.createTransaction itf dto w = (inl (InsufficientFunds r), w') ->
  exists d,
    statusCode r = 400%Z /\ error r = "INSUFFICIENT_FUNDS"
    /\ details r = Some d
    /\ 0 <= requestedAmount d
    /\ currentBalance d < requestedAmount d
    /\ shortfall d = requestedAmount d - currentBalance d
    /\ 0 < shortfall d.
Proof.
  intros H.
  destruct (findTransaction (store w) (CreateTransactionDto.transactionId dto))
    as [tx|] eqn:Hf.
  { rewrite (createTransaction_hit _ _ _ tx) in H by done. discriminate. }
  destruct (createTransaction_some_attempt (fun _ => True) itf dto w Hf)
    as (k & v & _ & Hk); [done..|].
  rewrite Hk in H.
  apply executeTransaction_insufficient in H
    as (wallet & c & _ & _ & Hneg & [= ->]).
  eexists. split; [reflexivity|]. split; [reflexivity|]. split; [reflexivity|].
  simpl. unfold Math_abs.
  pose proof (Qabs_nonneg (impactOf dto c)) as H0.
  pose proof (Qle_Qabs (- impactOf dto c)) as H1. rewrite Qabs_opp in H1.
  repeat split; [done| lra | lra].
Qed.

(** X11.  A deposit of a non-negative amount is never turned down for
    insufficient funds, as long as no wallet has a negative balance when
    the call starts and the other callers keep it so. *)
Theorem deposit_never_insufficient itf dto (w : World) (r : Response) :
  CreateTransactionDto.type dto = DEPOSIT ->
  0 <= CreateTransactionDto.amount dto ->
  NonNegative (store w) ->
  keeps NonNegative itf ->
  fst (WalletService.createTransaction itf dto w) <> inl (InsufficientFunds r).
Proof.
  intros Hty Ha Hw Hitf.
  destruct (findTransaction (store w) (CreateTransactionDto.transactionId dto))
    as [tx|] eqn:Hf.
  { rewrite (createTransaction_hit _ _ _ tx) by done. discriminate. }
  destruct (createTransaction_some_attempt NonNegative itf dto w Hf)
    as (k & v & Hv & Hk); [|done|].
  { intros i u Hu. apply executeTransaction_NonNegative; [apply Hitf..|done]. }
  rewrite Hk.
  destruct (WalletService.executeTransaction (itf k) dto v) as [res v'] eqn:E.
  simpl. intros ->.
  apply executeTransaction_insufficient in E as (wallet & c & Hwl & Hc & Hneg & _).
  apply (proj1 (Hitf k)) in Hv. apply (Hv _ _) in Hwl. simpl in Hwl.
  apply convert_nonneg in Hc; [|done].
  unfold impactOf in Hneg. rewrite Hty in Hneg. simpl in Hneg. lra.
Qed.

(* ===================================================================== *)
(** ** Queries *)





(** The history of the test wallet, requests a millisecond apart: the last
    one first. *)
Example history_newest_first :
  match WalletService.getTransactionHistory wallet1000 historyWorld with
  | (inr h, _) =>
      TransactionResponseDto.transactionId <$> h
      = ["consistency-3"; "consistency-2"; "consistency-1"]
      /\ TransactionResponseDto.createdAt <$> h = [3; 2; 1]%N
  | (inl _, _) => False
  end.
Proof. vm_compute. split; reflexivity. Qed.

(** A wallet id that names no stored wallet has no ledger rows. *)
Lemma transactionsOf_unreferenced (s : Store) (k : string) :
  Referenced s -> wallets s !! k = None -> transactionsOf s k = [].
Proof.
  unfold Referenced, transactionsOf. intros Href Hk.
  induction Href as [|t l [x Hx] _ IH]; [done|]. simpl.
  case_bool_decide as E; [congruence | done].
Qed.

(** X13.  A wallet just created can be read back: [getBalance] on the new
    id returns the initial balance as the column keeps it (two decimals; 0
    when omitted) and the currency given ('EGP' when omitted); every wallet
    that existed before reads as before; and the new wallet starts with an
    empty history when no ledger row is orphaned. *)
Theorem created_wallet_reads_back
  (initialBalance : option Q) (currency : option string) (w w' : World) wallet :
  WalletService.createWallet initialBalance currency w = (inr wallet, w') ->
  WalletService.getBalance (Wallet.id wallet) w'
  = (inr {| BalanceResponseDto.walletId := Wallet.id wallet;
            BalanceResponseDto.balance := toDecimal2 (default 0 initialBalance);
            BalanceResponseDto.currency := default "EGP" currency;
            BalanceResponseDto.lastUpdatedAt := clock (store w) |}, w')
  /\ (exists n : Z,
        toDecimal2 (default 0 initialBalance) = inject_Z n / 100
        /\ Qabs (toDecimal2 (default 0 initialBalance) - default 0 initialBalance)
           <= 1 # 200)
  /\ (String.length (default "EGP" currency) <= 3)%nat
  /\ Qabs (toDecimal2 (default 0 initialBalance)) < inject_Z (10 ^ 18)
  /\ (forall k, is_Some (wallets (store w) !! k) ->
        fst (WalletService.getBalance k w') = fst (WalletService.getBalance k w))
  /\ (Referenced (store w) ->
      WalletService.getTransactionHistory (Wallet.id wallet) w' = (inr [], w')).
Proof.
  intros H.
  apply createWallet_inr in H as (-> & Hfresh & Hb & Hc & Hclk & _ & Hlen & Hfit).
  unfold WalletService.getBalance, WalletService.getTransactionHistory, bind,
    walletRepository_findOne, transactionRepository_find, throw, ret. simpl.
  assert (Hl : findWallet
                 (mkStore (<[Wallet.id wallet := walletRow wallet]> (wallets (store w)))
                          (transactions (store w)) (clock (store w)))
                 (Wallet.id wallet) = inr (Some (walletRow wallet))).
  { apply findWallet_Some. simpl. apply lookup_insert_eq. }
  split; [|split; [apply toDecimal2_near|split; [done|split; [done|split]]]].
  - rewrite Hl. simpl. unfold walletRow in *. simpl in *. by rewrite Hb, Hc, Hclk.
  - intros k [x Hk].
    rewrite (proj2 (findWallet_Some _ k x)).
    + by rewrite (proj2 (findWallet_Some _ k x) Hk).
    + simpl. rewrite lookup_insert_ne; [done|]. intros <-. congruence.
  - intros Href. rewrite Hl.
    pose proof (transactionsOf_unreferenced _ _ Href Hfresh) as Hn.
    unfold transactionsOf in *. simpl. by rewrite Hn.
Qed.

(* ===================================================================== *)
(** ** A request that goes through *)





(** X15.  With no other caller in the way and no error of the store on the
    wallet update, a call opens at most one database transaction and never
    sleeps; it never ends in a version conflict; if it fails, it is for an
    unknown wallet, an unsupported currency, insufficient funds or a value
    the store cannot take, and the store is exactly what it was; and a new
    entry is stored only under a key of at most 255 characters and for an
    amount below 10^18 once rounded to two decimals. *)
Theorem sequential_call_never_retries dto (w w' : World) res :
  WalletService.createTransaction quietly dto w = (res, w') ->
  delays (trace w') = delays (trace w)
  /\ (attempts (trace w') <= attempts (trace w) + 1)%nat
  /\ res <> inl OptimisticLockVersionMismatchError
  /\ (forall e, res = inl e ->
        store w' = store w
        /\ (e = WalletNotFoundException (CreateTransactionDto.walletId dto)
            \/ (exists code, e = Error ("Unsupported currency: " ++ code))
            \/ (exists r, e = InsufficientFunds r)
            \/ (exists detail, e = QueryFailedError detail)))
  /\ (forall r, res = inr r ->
        findTransaction (store w) (CreateTransactionDto.transactionId dto) = None ->
        (String.length (CreateTransactionDto.transactionId dto) <= 255)%nat
        /\ Qabs (toDecimal2 (CreateTransactionDto.amount dto)) < inject_Z (10 ^ 18)).
Proof.
  intros H.
  destruct (findTransaction (store w) (CreateTransactionDto.transactionId dto))
    as [tx|] eqn:Hf.
  { rewrite (createTransaction_hit _ _ _ tx) in H by done.
    injection H as <- <-. split; [done|]. split; [lia|].
    split; [discriminate|]. split; [discriminate|]. intros r _ [=]. }
  rewrite createTransaction_miss in H by done.
  unfold WalletService.MAX_RETRIES in H. rewrite attemptLoop_step in H.
  change (quietly 1%nat) with quiet in H.
  pose proof (executeTransaction_trace quiet dto w) as Htr.
  destruct (WalletService.executeTransaction quiet dto w) as [[e|r] w1] eqn:E.
  - assert (Hnc : isOptimisticLockVersionMismatch e = false).
    { destruct e; try reflexivity.
      apply executeTransaction_conflict in E. discriminate. }
    rewrite Hnc in H. simpl in H. injection H as <- <-. simpl in Htr.
    rewrite Htr. unfold delays, attempts.
    rewrite flat_map_app, List.filter_app, length_app. simpl.
    rewrite app_nil_r. split; [done|]. split; [lia|].
    split; [intros [= ->]; discriminate|].
    split; [|discriminate].
    intros e' [= <-]. split.
    + by apply executeTransaction_inl in E as [_ [E'|E']].
    + apply executeTransaction_errors in E
        as [E|[E|[(wl & c & _ & _ & _ & E)|[E|(f & Hfault & _)]]]];
        [tauto | tauto | | tauto | discriminate].
      right. right. left. rewrite E. unfold InsufficientFundsException. eauto.
  - injection H as <- <-. simpl in Htr.
    rewrite Htr. unfold delays, attempts.
    rewrite flat_map_app, List.filter_app, length_app. simpl.
    rewrite app_nil_r. split; [done|]. split; [lia|].
    split; [discriminate|]. split; [discriminate|].
    intros r' _ _.
    apply executeTransaction_inr in E
      as (wallet & c & _ & _ & _ & _ & _ & [Hcols _] & _).
    apply transactionColumnsError_None in Hcols as (H1 & H2 & _). done.
Qed.

(* ===================================================================== *)
(** ** Shape of the store, kept by every request *)

(** Whatever every attempt keeps, the loop and the call keep. *)
Lemma attemptLoop_keeps (P : Store -> Prop) remaining attempt itf dto (w : World) :
  (forall k (v : World),
     P (store v) ->
     P (store (snd (WalletService.executeTransaction (itf k) dto v)))) ->
  P (store w) ->
  P (store (snd (WalletService.attemptLoop remaining attempt itf dto w))).
Proof.
  intros Hx. revert attempt w.
  induction remaining as [|n IH]; intros attempt w Hw; [done|].
  rewrite attemptLoop_step.
  pose proof (Hx attempt w Hw) as H1.
  destruct (WalletService.executeTransaction (itf attempt) dto w) as [[e|r] w'];
    [|done].
  destruct (isOptimisticLockVersionMismatch e && _); [|done].
  by apply IH.
Qed.

Lemma createTransaction_keeps (P : Store -> Prop) itf dto (w : World) :
  (forall k (v : World),
     P (store v) ->
     P (store (snd (WalletService.executeTransaction (itf k) dto v)))) ->
  P (store w) ->
  P (store (snd (WalletService.createTransaction itf dto w))).
Proof.
  intros Hx Hw.
  destruct (findTransaction (store w) (CreateTransactionDto.transactionId dto))
    as [tx|] eqn:Hf.
  - by rewrite (createTransaction_hit _ _ _ tx).
  - rewrite createTransaction_miss by done. by apply attemptLoop_keeps.
Qed.

Lemma findTransaction_None (s : Store) (k : string) :
  findTransaction s k = None -> k ∉ Transaction.transactionId <$> transactions s.
Proof.
  unfold findTransaction. intros H Hin.
  apply list_elem_of_fmap in Hin as (t & -> & Ht).
  apply list_elem_of_In in Ht.
  eapply List.find_none in H; [|done].
  by rewrite bool_decide_eq_true_2 in H.
Qed.

Lemma createWallet_Structured initialBalance currency (w : World) :
  Structured (store w) ->
  Structured (store (snd (WalletService.createWallet initialBalance currency w))).
Proof.
  intros (Hkey & Href & Huniq).
  destruct (WalletService.createWallet initialBalance currency w) as [[e|wl] w'] eqn:E.
  - unfold WalletService.createWallet, walletRepository_save in E.
    destruct (walletColumnsError _); [|discriminate].
    injection E as _ <-. done.
  - apply createWallet_inr in E as (-> & Hfresh & _). simpl.
    split; [|split].
    + by apply map_Forall_insert_2.
    + unfold Referenced in *. simpl.
      eapply Forall_impl; [exact Href|]. intros t [x Hx]. simpl in *.
      destruct (decide (Wallet.id wl = Transaction.walletId t)) as [E|E].
      * rewrite E. rewrite lookup_insert_eq. eauto.
      * rewrite lookup_insert_ne by done. eauto.
    + exact Huniq.
Qed.

(** A commit keeps the shape of the store it lands on. *)
Lemma committed_Structured dto wallet c (s2 : Store) :
  Structured s2 ->
  Wallet.id wallet = CreateTransactionDto.walletId dto ->
  findTransaction s2 (CreateTransactionDto.transactionId dto) = None ->
  Structured (committed dto wallet c s2).
Proof.
  intros (Hkey & Href & Huniq) Hid Hnone.
  split; [|split].
  - unfold committed. by apply map_Forall_insert_2.
  - unfold Referenced, committed in *. simpl.
    apply Forall_app. split.
    + eapply Forall_impl; [exact Href|]. intros t [x Hx]. simpl in *.
      destruct (decide (Wallet.id wallet = Transaction.walletId t)) as [E|E].
      * rewrite E. rewrite lookup_insert_eq. eauto.
      * rewrite lookup_insert_ne by done. eauto.
    + apply Forall_singleton. simpl. rewrite <- Hid.
      rewrite lookup_insert_eq. eauto.
  - unfold UniqueKeys, committed in *. simpl.
    rewrite fmap_app. apply NoDup_app. split; [done|]. split.
    + intros x Hx Hin. simpl in Hin. apply list_elem_of_singleton in Hin.
      subst x. by apply findTransaction_None in Hnone.
    + simpl. apply NoDup_singleton.
Qed.

Lemma executeTransaction_Structured itf dto (w : World) :
  preserves Structured (beforeLoad itf) ->
  preserves Structured (beforeCommit itf) ->
  Structured (store w) ->
  Structured (store (snd (WalletService.executeTransaction itf dto w))).
Proof.
  intros Hl Hc Hs.
  destruct (WalletService.executeTransaction itf dto w) as [[e|r] w'] eqn:E.
  - apply executeTransaction_inl in E as [_ [E|E]]; simpl; rewrite E; auto.
  - apply executeTransaction_inr in E
      as (wallet & c & Hw & _ & _ & Hnone & _ & _ & _ & ->).
    simpl.
    pose proof (Hl _ Hs) as (Hkey1 & _).
    pose proof (Hkey1 _ _ Hw) as Hid. simpl in Hid.
    by apply (committed_Structured dto wallet c); [apply Hc, Hl| |].
Qed.

Lemma otherCaller_Structured dto : preserves Structured (otherCaller dto).
Proof.
  intros s Hs. unfold otherCaller.
  apply createTransaction_keeps; [|done].
  intros k v Hv. apply executeTransaction_Structured; [..|done]; by intros ? ?.
Qed.

(** X16.  Starting from an empty store, whatever requests are served,
    whatever the other callers commit in between (as long as they keep the
    same shape) and whatever errors the store raises, the store keeps its
    shape: every wallet row sits under its own id, every ledger row belongs
    to a stored wallet, and no two ledger rows share a [transactionId]. *)
Theorem store_stays_structured (reqs : list Request) :
  Forall (respects Structured) reqs ->
  Structured (store (serveAll reqs emptyWorld)).
Proof.
  intros Hreqs.
  assert (Hgen : forall l (w : World),
            Forall (respects Structured) l -> Structured (store w) ->
            Structured (store (serveAll l w))).
  { induction l as [|req l IH]; intros w Hl Hw; [done|].
    inversion Hl as [|? ? Hreq Hl']; subst. simpl. apply IH; [done|].
    destruct req as [b c|itf dto]; simpl.
    - by apply createWallet_Structured.
    - apply createTransaction_keeps; [|done].
      intros k v Hv. apply executeTransaction_Structured; [apply Hreq..|done]. }
  apply Hgen; [done|].
  split; [|split].
  - apply map_Forall_empty.
  - constructor.
  - constructor.
Qed.

(* ===================================================================== *)
(** ** What a commit overwrites *)

(** X18.  An attempt that commits writes the balance it loaded plus its own
    impact (a balance of whole hundredths and amounts up to 10^12, where the
    sum is exact), whatever the wallet row holds by then: what another
    caller has committed on the same wallet since the load is overwritten.
    So on the test wallet, with a deposit of 1 committed by another caller
    between this caller's load and its save of a deposit of 10, both ledger
    rows are there, summing to 11, and the balance is 1010. *)
Theorem commit_overwrites_concurrent_commit :
  (forall itf dto (w w' : World) r,
     WalletService.executeTransaction itf dto w = (inr r, w') ->
     exists wallet row,
       wallets (beforeLoad itf (store w)) !! CreateTransactionDto.walletId dto
       = Some wallet
       /\ wallets (store w') !! Wallet.id wallet = Some row
       /\ (forall j : Z,
             Wallet.balance wallet == inject_Z j / 100 ->
             (0 <= j <= 10 ^ 14)%Z ->
             Qabs (TransactionResponseDto.convertedAmount r) <= inject_Z (10 ^ 12) ->
             Wallet.balance row
             == Wallet.balance wallet + TransactionResponseDto.convertedAmount r))
  /\ (exists r, fst overlappedRun = inr r)
  /\ Transaction.transactionId <$> transactions (store (snd overlappedRun))
     = ["theirs"; "mine"]
  /\ ledgerSum (store (snd overlappedRun)) wallet1000 == 11
  /\ match wallets (store world1000) !! wallet1000,
           wallets (store (snd overlappedRun)) !! wallet1000 with
     | Some before, Some after =>
         Wallet.balance before == 1000 /\ Wallet.balance after == 1010
     | _, _ => False
     end.
Proof.
  split.
  - intros itf dto w w' r H.
    apply executeTransaction_inr in H
      as (wallet & c & Hw & Hc & _ & _ & _ & _ & -> & ->).
    exists wallet, (walletAfter wallet (impactOf dto c)
                      (beforeCommit itf (beforeLoad itf (store w)))).
    split; [done|]. split.
    + unfold committed. simpl. apply lookup_insert_eq.
    + intros j Hj _ _.
      exact (walletAfter_balance dto _ _ c wallet _ j Hc Hj).
  - vm_compute. split; [eauto|]. repeat split; reflexivity.
Qed.

(* ===================================================================== *)
(** ** The verdict on a new wallet *)

Lemma hundredths_zero (n : Z) :
  Qltb (Qabs (inject_Z n / 100 - 0)) (1 # 100) = true <-> inject_Z n / 100 == 0.
Proof.
  rewrite Qltb_lt. unfold Qminus. change (- 0) with 0. rewrite Qplus_0_r.
  split.
  - intros H. apply Qabs_Qlt_condition in H as [H1 H2].
    unfold Qdiv in *. change (/ 100) with (1 # 100) in *.
    assert (Hn : (-1 < n < 1)%Z).
    { split; rewrite Zlt_Qlt; [change (inject_Z (-1)) with (-1)
                              | change (inject_Z 1) with 1]; lra. }
    assert (n = 0%Z) as -> by lia. reflexivity.
  - intros H. rewrite H. reflexivity.
Qed.

(** X20.  The consistency check on a wallet just created, over a store
    without orphaned ledger rows, answers [true] exactly when the balance
    stored for it is zero: the ledger of a new wallet is empty, and the
    initial balance is in no ledger row. *)
Theorem created_wallet_verdict
  (initialBalance : option Q) (currency : option string) (w w' : World) wallet :
  Referenced (store w) ->
  WalletService.createWallet initialBalance currency w = (inr wallet, w') ->
  exists verdict : bool,
    WalletService.validateBalanceConsistency (Wallet.id wallet) w'
    = (inr verdict, w')
    /\ (verdict = true <-> toDecimal2 (default 0 initialBalance) == 0).
Proof.
  intros Href H.
  apply createWallet_inr in H as (-> & Hfresh & Hb & _).
  pose proof (transactionsOf_unreferenced _ _ Href Hfresh) as Hn.
  set (s' := mkStore (<[Wallet.id wallet := walletRow wallet]> (wallets (store w)))
                     (transactions (store w)) (clock (store w))).
  assert (Hn' : transactionsOf s' (Wallet.id wallet) = []) by exact Hn.
  assert (Hl : findWallet s' (Wallet.id wallet) = inr (Some (walletRow wallet))).
  { apply findWallet_Some. apply lookup_insert_eq. }
  unfold WalletService.validateBalanceConsistency, bind,
    walletRepository_findOne, transactionRepository_sumConvertedAmount,
    throw, ret. cbn [store].
  rewrite Hl. cbv beta iota zeta. cbn [store]. rewrite Hn'. cbn [from_option id].
  eexists. split; [reflexivity|].
  rewrite Hb. unfold Math_abs, toDecimal2. apply hundredths_zero.
Qed.

(* ===================================================================== *)
(** ** The further theorems at work on concrete requests *)

Lemma emptyStore_Structured : Structured emptyStore.
Proof.
  split; [|split]; [apply map_Forall_empty | constructor | constructor].
Qed.

Lemma quietly_keeps (P : Store -> Prop) : keeps P quietly.
Proof. intros k. split; intros s Hs; exact Hs. Qed.

Lemma convert_unsupported_witness :
  CurrencyService.convert 10 "btc" "EGP" = inl (Error "Unsupported currency: BTC")
  /\ CurrencyService.convert 10 "usd" "btc" = inl (Error "Unsupported currency: BTC").
Proof.
  split.
  - apply (proj1 (convert_unsupported 10 "btc" "EGP")). reflexivity.
  - apply (proj2 (convert_unsupported 10 "usd" "btc") 49); reflexivity.
Defined.

Lemma convert_monotone_witness :
  exists q0 q1 q2,
    CurrencyService.convert 0 "AED" "USD" = inr q0
    /\ CurrencyService.convert (1 # 3) "AED" "USD" = inr q1
    /\ CurrencyService.convert (1 # 2) "AED" "USD" = inr q2
    /\ q0 == 0 /\ q1 <= q2 /\ (0 <= 1 # 3 -> 0 <= q1).
Proof.
  apply (convert_monotone (1 # 3) (1 # 2) "AED" "USD" (133 # 10) 49).
  - reflexivity.
  - reflexivity.
  - vm_compute. discriminate.
Defined.


Lemma createTransaction_unsupported_currency_witness :
  WalletService.createTransaction quietly
    (deposit "tx-1" wallet1000 5 "btc") world1000
  = (inl (Error "Unsupported currency: BTC"),
     mkWorld (store world1000) (trace world1000 ++ [EvTransaction])).
Proof.
  apply (createTransaction_unsupported_currency quietly
           (deposit "tx-1" wallet1000 5 "btc") world1000 testWallet).
  - vm_compute. reflexivity.
  - vm_compute. reflexivity.
  - vm_compute. reflexivity.
Defined.

Lemma insufficient_funds_reports_positive_shortfall_witness :
  exists d,
    statusCode
      {| statusCode := 400; message := "Insufficient funds";
         error := "INSUFFICIENT_FUNDS";
         details := Some {| currentBalance := 100000 # 100;
                            requestedAmount := 200000 # 100;
                            shortfall := (200000 # 100) - (100000 # 100) |} |} = 400%Z
    /\ error
         {| statusCode := 400; message := "Insufficient funds";
            error := "INSUFFICIENT_FUNDS";
            details := Some {| currentBalance := 100000 # 100;
                               requestedAmount := 200000 # 100;
                               shortfall := (200000 # 100) - (100000 # 100) |} |}
       = "INSUFFICIENT_FUNDS"
    /\ details
         {| statusCode := 400; message := "Insufficient funds";
            error := "INSUFFICIENT_FUNDS";
            details := Some {| currentBalance := 100000 # 100;
                               requestedAmount := 200000 # 100;
                               shortfall := (200000 # 100) - (100000 # 100) |} |}
       = Some d
    /\ 0 <= requestedAmount d
    /\ currentBalance d < requestedAmount d
    /\ shortfall d = requestedAmount d - currentBalance d
    /\ 0 < shortfall d.
Proof.
  apply (insufficient_funds_reports_positive_shortfall quietly overdraw world1000
           (mkWorld (store world1000) (trace world1000 ++ [EvTransaction]))).
  vm_compute. reflexivity.
Defined.

Lemma deposit_never_insufficient_witness :
  fst (WalletService.createTransaction quietly firstDeposit world1000)
  <> inl (InsufficientFunds (mkResponse 400 "Insufficient funds" "INSUFFICIENT_FUNDS" None)).
Proof.
  apply (deposit_never_insufficient quietly firstDeposit world1000).
  - reflexivity.
  - vm_compute. discriminate.
  - apply createWallet_NonNegative; [vm_compute; discriminate | apply map_Forall_empty].
  - apply quietly_keeps.
Defined.


Lemma created_wallet_reads_back_witness :
  WalletService.getBalance (Wallet.id tinyWallet) tinyWorld
  = (inr {| BalanceResponseDto.walletId := Wallet.id tinyWallet;
            BalanceResponseDto.balance := toDecimal2 (default 0 (Some (5 # 1000)));
            BalanceResponseDto.currency := default "EGP" (Some "EGP");
            BalanceResponseDto.lastUpdatedAt := clock (store emptyWorld) |},
     tinyWorld)
  /\ (exists n : Z,
        toDecimal2 (default 0 (Some (5 # 1000))) = inject_Z n / 100
        /\ Qabs (toDecimal2 (default 0 (Some (5 # 1000))) - default 0 (Some (5 # 1000)))
           <= 1 # 200)
  /\ (String.length (default "EGP" (Some "EGP")) <= 3)%nat
  /\ Qabs (toDecimal2 (default 0 (Some (5 # 1000)))) < inject_Z (10 ^ 18)
  /\ (forall k, is_Some (wallets (store emptyWorld) !! k) ->
        fst (WalletService.getBalance k tinyWorld)
        = fst (WalletService.getBalance k emptyWorld))
  /\ (Referenced (store emptyWorld) ->
      WalletService.getTransactionHistory (Wallet.id tinyWallet) tinyWorld
      = (inr [], tinyWorld)).
Proof.
  apply (created_wallet_reads_back (Some (5 # 1000)) (Some "EGP") emptyWorld
           tinyWorld tinyWallet).
  vm_compute. reflexivity.
Defined.

(** Half a hundredth is stored, and read back, as one hundredth. *)
Example half_a_hundredth_reads_back_as_one :
  match WalletService.getBalance (Wallet.id tinyWallet) tinyWorld with
  | (inr b, _) => BalanceResponseDto.balance b == 1 # 100
  | (inl _, _) => False
  end.
Proof. vm_compute. reflexivity. Qed.


Lemma sequential_call_never_retries_witness :
  let run := WalletService.createTransaction quietly overdraw world1000 in
  delays (trace (snd run)) = delays (trace world1000)
  /\ (attempts (trace (snd run)) <= attempts (trace world1000) + 1)%nat
  /\ fst run <> inl OptimisticLockVersionMismatchError
  /\ (forall e, fst run = inl e ->
        store (snd run) = store world1000
        /\ (e = WalletNotFoundException (CreateTransactionDto.walletId overdraw)
            \/ (exists code, e = Error ("Unsupported currency: " ++ code))
            \/ (exists r, e = InsufficientFunds r)
            \/ (exists detail, e = QueryFailedError detail)))
  /\ (forall r, fst run = inr r ->
        findTransaction (store world1000)
          (CreateTransactionDto.transactionId overdraw) = None ->
        (String.length (CreateTransactionDto.transactionId overdraw) <= 255)%nat
        /\ Qabs (toDecimal2 (CreateTransactionDto.amount overdraw))
           < inject_Z (10 ^ 18)).
Proof.
  intros run.
  apply (sequential_call_never_retries overdraw world1000 (snd run) (fst run)).
  subst run. apply surjective_pairing.
Defined.

Lemma store_stays_structured_witness :
  Structured (store (serveAll consistencyRequests emptyWorld)).
Proof.
  apply (store_stays_structured consistencyRequests).
  unfold consistencyRequests.
  constructor; [exact I|].
  constructor; [apply quietly_keeps|].
  constructor; [apply quietly_keeps|].
  constructor; [apply quietly_keeps|].
  constructor.
Defined.

Lemma created_wallet_verdict_witness :
  exists verdict : bool,
    WalletService.validateBalanceConsistency (Wallet.id tinyWallet) tinyWorld
    = (inr verdict, tinyWorld)
    /\ (verdict = true <-> toDecimal2 (default 0 (Some (5 # 1000))) == 0).
Proof.
  apply (created_wallet_verdict (Some (5 # 1000)) (Some "EGP") emptyWorld tinyWorld
           tinyWallet).
  - constructor.
  - vm_compute. reflexivity.
Defined.
